(** * BankerBot: ledger client, economy registry and transfer saga

    A shallow embedding of [cogs/unbelievaboat.py], [cogs/database.py],
    [cogs/transfer.py], [cogs/admin.py] and the approval view of
    [cogs/economy.py].

    - Python [float] is IEEE binary64: amounts, rates and balances are
      primitive floats, with Python's comparison and division behaviour
      ([x / 0.0] raises [ZeroDivisionError]).
    - The coroutines run one after the other on a single [World]: the bot's
      configuration and SQLite tables, and the remote UnbelievaBoat ledger
      seen through its HTTP replies.  A coroutine is a function
      [World -> option (A * World)], [None] standing for a call that does
      not return; every coroutine below returns.
    - [_make_request] calls itself after a throttling reply, inside its own
      [try].  The interpreter allows only so many nested calls (its
      recursion limit, a thousand frames unless changed); the
      [RecursionError] of the call that does not fit is caught by the
      [except Exception] of the function and becomes the answer [None].
      The coroutines that send requests take this room as their parameter
      [depth]: the number of nested calls of [_make_request] that still fit
      on the stack.
    - The remote service is outside the repository.  It is driven by a
      reply script ([replies], one HTTP outcome per request): a request
      answered 200 is applied to the ledger, whether or not the client can
      read the body of the answer; any other outcome leaves the ledger as
      it was, and nothing else writes to the ledger while a call runs.  A
      body that can be read and is not empty is the account object of the
      API, with the balance the ledger holds. *)

From Corelib Require Import PrimFloat FloatAxioms.
From Stdlib Require Import ZArith Ascii String.
From stdpp Require Import base option list gmap strings sorting.

Local Open Scope string_scope.
Local Open Scope Z_scope.

(* Decimal literals denote, as in Python, the nearest binary64 value. *)
Set Warnings "-inexact-float".

(** ** Python primitives *)

Abbreviation pyfloat := PrimFloat.float.

(** [x < y], [x > y], [x >= y] on floats (all false on NaN, as in Python). *)
Definition py_lt (x y : pyfloat) : bool := PrimFloat.ltb x y.
Definition py_gt (x y : pyfloat) : bool := PrimFloat.ltb y x.
Definition py_ge (x y : pyfloat) : bool := PrimFloat.leb y x.

Definition py_add (x y : pyfloat) : pyfloat := PrimFloat.add x y.
Definition py_neg (x : pyfloat) : pyfloat := PrimFloat.opp x.
Definition py_mul (x y : pyfloat) : pyfloat := PrimFloat.mul x y.

(** [x / y]: [None] stands for the [ZeroDivisionError] Python raises when
    the divisor compares equal to zero. *)
Definition py_truediv (x y : pyfloat) : option pyfloat :=
  if PrimFloat.eqb y 0%float then None else Some (PrimFloat.div x y).

(** [str.lower()], on the ASCII letters. *)
Definition lower_ascii (c : ascii) : ascii :=
  let n := nat_of_ascii c in
  if (Nat.leb 65 n && Nat.leb n 90)%bool then ascii_of_nat (n + 32) else c.

Fixpoint lower (s : string) : string :=
  match s with
  | EmptyString => EmptyString
  | String c s' => String (lower_ascii c) (lower s')
  end.

(** ** Data *)

(** The balance dictionary [{'cash', 'bank', 'total'}] of the client (the
    ['rank'] entry of [get_user_balance] is never read and is left out). *)
Record Balance := mkBalance { cash : pyfloat; bank : pyfloat; total : pyfloat }.

Definition zero_balance : Balance := mkBalance 0%float 0%float 0%float.

(** The JSON body of a PATCH: [{'reason', 'cash'?, 'bank'?}]. *)
Record PatchBody := mkPatch {
  patch_cash : option pyfloat;
  patch_bank : option pyfloat;
  patch_reason : string
}.

Inductive Method := GET | PATCH.

(** A request to [/guilds/{guild_id}/users/{user_id}]. *)
Record Request := mkRequest {
  req_method : Method;
  req_guild : Z;
  req_user : Z;
  req_json : option PatchBody
}.

(** The [Retry-After] header of a 429 reply: absent, an integer, or text
    that [int()] refuses. *)
Inductive RetryAfter := NoRetryAfter | RetryAfterInt (seconds : Z) | RetryAfterBad.

(** What one call of [session.request] comes back with. [Status200] is a
    200 whose body is the account as a JSON object; [Status200Empty] a 200
    whose body is JSON that Python takes for false, as [{}] is;
    [Status200Unreadable] a 200 on which [response.json()] raises.
    [ClientError] is a call that raises instead of answering: a network
    error, or a session that [cog_unload] has closed. *)
Inductive Reply :=
| Status200
| Status200Empty
| Status200Unreadable
| Status429 (h : RetryAfter)
| Status404
| Status403
| StatusOther (code : Z)
| ClientError.

(** What [response.json()] gives on a 200. *)
Inductive Data := Account (b : Balance) | Empty.

Inductive Delay := ApiDelay (seconds : pyfloat) | RetryDelay (seconds : Z).

(** Rows of the SQLite tables. Timestamps ([datetime.utcnow().isoformat()])
    are readings of the wall clock [now]. *)
Record Economy := mkEconomy {
  guild_id : Z;
  guild_name : string;
  currency_name : string;
  currency_symbol : string;
  rate_usd : pyfloat;
  status : string;
  application_note : option string;
  applied_by : Z;
  applied_at : Z;
  approved_at : option Z;
  approved_by : option Z
}.

Record TransferRecord := mkTransferRecord {
  tr_user_id : Z;
  from_guild_id : Z;
  to_guild_id : Z;
  amount_source : pyfloat;
  amount_target : pyfloat;
  source_currency : string;
  target_currency : string;
  tr_wallet_type : string;
  tr_timestamp : Z;
  exchange_rate : pyfloat
}.

Record Officer := mkOfficer { officer_id : Z; added_at : Z; added_by : Z }.

(** The [details] text of an audit entry, before formatting. *)
Inductive AuditDetails :=
| NoDetails
| TransferredTo (amount : pyfloat) (target_name : string)
| KickReason (reason : string).

Record AuditEntry := mkAudit {
  au_action : string;
  au_user_id : Z;
  au_guild_id : option Z;
  au_details : AuditDetails;
  au_timestamp : Z
}.

Record Config := mkConfig {
  owner_user_id : Z;
  api_delay : pyfloat;
  min_exchange_rate : pyfloat;
  max_exchange_rate : pyfloat;
  min_transfer_amount : pyfloat;
  max_transfer_amount : pyfloat
}.

(** [bot.config] as [bot.py] sets it (the owner id is a placeholder there). *)
Definition default_config (owner : Z) : Config :=
  mkConfig owner 1%float 0.01%float 10000%float 1%float 1000000%float.

Record World := mkWorld {
  config : Config;
  db_loaded : bool;           (* bot.get_cog('Database') is not None *)
  unb_loaded : bool;          (* bot.get_cog('UnbelievaBoat') is not None *)
  session : bool;             (* UnbelievaBoat.session is set: cog_load has run *)
  now : Z;
  economies : list Economy;
  transfers : list TransferRecord;
  approved_officers : list Officer;
  audit_log : list AuditEntry;
  ledger : gmap (Z * Z) Balance;   (* the remote balances, by (guild, user) *)
  replies : nat -> Reply;          (* outcome of the n-th request *)
  requests : list Request;         (* calls of session.request, oldest first *)
  slept : list Delay               (* asyncio.sleep calls, oldest first *)
}.

Definition set_ledger (l : gmap (Z * Z) Balance) (w : World) : World :=
  mkWorld (config w) (db_loaded w) (unb_loaded w) (session w) (now w)
          (economies w) (transfers w) (approved_officers w) (audit_log w)
          l (replies w) (requests w) (slept w).

Definition add_request (r : Request) (w : World) : World :=
  mkWorld (config w) (db_loaded w) (unb_loaded w) (session w) (now w)
          (economies w) (transfers w) (approved_officers w) (audit_log w)
          (ledger w) (replies w) (requests w ++ [r]) (slept w).

Definition sleep (d : Delay) (w : World) : World :=
  mkWorld (config w) (db_loaded w) (unb_loaded w) (session w) (now w)
          (economies w) (transfers w) (approved_officers w) (audit_log w)
          (ledger w) (replies w) (requests w) (slept w ++ [d]).

Definition set_economies (es : list Economy) (w : World) : World :=
  mkWorld (config w) (db_loaded w) (unb_loaded w) (session w) (now w)
          es (transfers w) (approved_officers w) (audit_log w)
          (ledger w) (replies w) (requests w) (slept w).

Definition add_transfer (t : TransferRecord) (w : World) : World :=
  mkWorld (config w) (db_loaded w) (unb_loaded w) (session w) (now w)
          (economies w) (transfers w ++ [t]) (approved_officers w) (audit_log w)
          (ledger w) (replies w) (requests w) (slept w).

Definition add_audit (a : AuditEntry) (w : World) : World :=
  mkWorld (config w) (db_loaded w) (unb_loaded w) (session w) (now w)
          (economies w) (transfers w) (approved_officers w) (audit_log w ++ [a])
          (ledger w) (replies w) (requests w) (slept w).

(** ** Coroutines *)

Definition Coro (A : Type) : Type := World -> option (A * World).

Definition ret {A} (a : A) : Coro A := fun w => Some (a, w).

Definition bind {A B} (m : Coro A) (k : A -> Coro B) : Coro B :=
  fun w => match m w with
           | Some (a, w') => k a w'
           | None => None
           end.

Notation "'await' x <~ m ; k" := (bind m (fun x => k))
  (at level 10, x name, m at level 99, k at level 200).

(** ** The remote ledger (UnbelievaBoat API) *)

Definition balance_of (l : gmap (Z * Z) Balance) (g u : Z) : Balance :=
  default zero_balance (l !! (g, u)).

(** The effect of a request that is answered 200: GET returns the stored
    balance; PATCH overwrites the wallets present in the body and returns the
    new balance. *)
Definition remote_apply (r : Request) (l : gmap (Z * Z) Balance)
  : Balance * gmap (Z * Z) Balance :=
  let old := balance_of l (req_guild r) (req_user r) in
  match req_method r, req_json r with
  | PATCH, Some body =>
      let c := default (cash old) (patch_cash body) in
      let b := default (bank old) (patch_bank body) in
      let new := mkBalance c b (py_add c b) in
      (new, <[(req_guild r, req_user r) := new]> l)
  | _, _ => (old, l)
  end.

(** ** cogs/unbelievaboat.py *)

(** [int(response.headers.get('Retry-After', 60))]; [None] is the
    [ValueError] of a header that is not an integer. *)
Definition retry_after (h : RetryAfter) : option Z :=
  match h with
  | NoRetryAfter => Some 60
  | RetryAfterInt n => Some n
  | RetryAfterBad => None
  end.

(** [UnbelievaBoat._make_request]. Every attempt sleeps [api_delay], calls
    [session.request] and reads the status; a 429 sleeps [Retry-After]
    seconds and calls [_make_request] again. With no room left for that
    nested call ([depth] is 0) its [RecursionError] is caught here and the
    answer is [None]. *)
Fixpoint _make_request (depth : nat) (method : Method) (g u : Z)
    (json_data : option PatchBody) (w : World) : option (option Data * World) :=
  if negb (session w) then Some (None, w)
  else
    let w1 := sleep (ApiDelay (api_delay (config w))) w in
    let r := mkRequest method g u json_data in
    let reply := replies w1 (length (requests w1)) in
    let w2 := add_request r w1 in
    match reply with
    | Status200 =>
        let '(data, l) := remote_apply r (ledger w2) in
        Some (Some (Account data), set_ledger l w2)
    | Status200Empty =>
        Some (Some Empty, set_ledger (snd (remote_apply r (ledger w2))) w2)
    | Status200Unreadable =>
        Some (None, set_ledger (snd (remote_apply r (ledger w2))) w2)
    | Status429 h =>
        match retry_after h with
        | Some n =>
            let w3 := sleep (RetryDelay n) w2 in
            match depth with
            | O => Some (None, w3)
            | S depth' => _make_request depth' method g u json_data w3
            end
        | None => Some (None, w2)
        end
    | Status404 => Some (None, w2)
    | Status403 => Some (None, w2)
    | StatusOther _ => Some (None, w2)
    | ClientError => Some (None, w2)
    end.

(** [UnbelievaBoat.get_user_balance]; [if data:] is false on [None] and on
    empty data. *)
Definition get_user_balance (depth : nat) (g u : Z) : Coro (option Balance) :=
  await data <~ _make_request depth GET g u None ;
  match data with
  | Some (Account d) => ret (Some (mkBalance (cash d) (bank d) (total d)))
  | Some Empty => ret None
  | None => ret None
  end.

(** [UnbelievaBoat.set_user_balance]. *)
Definition set_user_balance (depth : nat) (g u : Z)
    (new_cash new_bank : option pyfloat) (reason : string) : Coro (option Balance) :=
  let json_data := mkPatch new_cash new_bank reason in
  await data <~ _make_request depth PATCH g u (Some json_data) ;
  match data with
  | Some (Account d) => ret (Some (mkBalance (cash d) (bank d) (total d)))
  | Some Empty => ret None
  | None => ret None
  end.

(** [if change is not None: new += change]. *)
Definition add_change (x : pyfloat) (change : option pyfloat) : pyfloat :=
  match change with
  | Some d => py_add x d
  | None => x
  end.

(** [UnbelievaBoat.modify_user_balance]. *)
Definition modify_user_balance (depth : nat) (g u : Z)
    (cash_change bank_change : option pyfloat) (reason : string)
  : Coro (option Balance) :=
  await current <~ get_user_balance depth g u ;
  match current with
  | None => ret None
  | Some cur =>
      let new_cash := add_change (cash cur) cash_change in
      let new_bank := add_change (bank cur) bank_change in
      if (py_lt new_cash 0%float || py_lt new_bank 0%float)%bool then ret None
      else set_user_balance depth g u (Some new_cash) (Some new_bank) reason
  end.

(** [UnbelievaBoat.user_has_sufficient_balance]. *)
Definition user_has_sufficient_balance (depth : nat) (g u : Z)
    (amount : pyfloat) (wallet_type : string) : Coro bool :=
  await balance <~ get_user_balance depth g u ;
  match balance with
  | None => ret false
  | Some b =>
      if String.eqb (lower wallet_type) "cash" then ret (py_ge (cash b) amount)
      else if String.eqb (lower wallet_type) "bank" then ret (py_ge (bank b) amount)
      else ret false
  end.

(** ** cogs/database.py

    The SQLite file is taken to be readable and writable. Of the errors a
    query can raise the model has the [IntegrityError] of a duplicate
    primary key and of a NaN rate (which SQLite stores as NULL, against
    NOT NULL), and the [OverflowError] of an officer id beyond 64 bits:
    officer ids are typed by the owner in a direct message, while guild and
    user ids come from Discord and fit. *)

(** An integer that fits SQLite's 64-bit INTEGER. *)
Definition sqlite_integer (n : Z) : bool :=
  (- 2 ^ 63 <=? n) && (n <? 2 ^ 63).

(** [ORDER BY applied_at DESC]: a stable insertion sort, latest first. *)
Fixpoint insert_desc (e : Economy) (l : list Economy) : list Economy :=
  match l with
  | [] => [e]
  | x :: l' =>
      if applied_at x <=? applied_at e then e :: l else x :: insert_desc e l'
  end.

Definition order_by_applied_at_desc (l : list Economy) : list Economy :=
  foldr insert_desc [] l.

(** [Database.add_economy]. *)
Definition add_economy (gid : Z) (name cname csymbol : string) (rate : pyfloat)
    (by_user : Z) (note : option string) (w : World) : bool * World :=
  if existsb (fun e => guild_id e =? gid) (economies w) then (false, w)
  else if PrimFloat.is_nan rate then (false, w)
  else
    let row := mkEconomy gid name cname csymbol rate "pending" note by_user
                         (now w) None None in
    (true, set_economies (economies w ++ [row]) w).

(** [Database.get_economy]. *)
Definition get_economy (gid : Z) (w : World) : option Economy :=
  find (fun e => guild_id e =? gid) (economies w).

(** [Database.get_all_economies]; [if status:] is false on [None] and on
    the empty string. *)
Definition get_all_economies (st : option string) (w : World) : list Economy :=
  match st with
  | Some s =>
      if String.eqb s "" then order_by_applied_at_desc (economies w)
      else order_by_applied_at_desc
             (filter (fun e => status e = s) (economies w))
  | None => order_by_applied_at_desc (economies w)
  end.

Definition with_status (s : string) (e : Economy) : Economy :=
  mkEconomy (guild_id e) (guild_name e) (currency_name e) (currency_symbol e)
            (rate_usd e) s (application_note e) (applied_by e) (applied_at e)
            (approved_at e) (approved_by e).

Definition with_approval (s : string) (at_time by_user : Z) (e : Economy) : Economy :=
  mkEconomy (guild_id e) (guild_name e) (currency_name e) (currency_symbol e)
            (rate_usd e) s (application_note e) (applied_by e) (applied_at e)
            (Some at_time) (Some by_user).

(** [UPDATE economies SET ... WHERE guild_id = ?]. *)
Definition update_where (gid : Z) (f : Economy -> Economy) (l : list Economy)
  : list Economy :=
  map (fun e => if guild_id e =? gid then f e else e) l.

(** [approved_by] as a condition: an id that is given and is not 0. *)
Definition truthy_id (o : option Z) : option Z :=
  match o with
  | Some n => if n =? 0 then None else Some n
  | None => None
  end.

(** [Database.update_economy_status]. *)
Definition update_economy_status (gid : Z) (st : string) (by_user : option Z)
    (w : World) : bool * World :=
  match String.eqb st "approved", truthy_id by_user with
  | true, Some officer =>
      (true, set_economies
               (update_where gid (with_approval st (now w) officer) (economies w)) w)
  | _, _ =>
      (true, set_economies (update_where gid (with_status st) (economies w)) w)
  end.

(** [Database.remove_economy]. *)
Definition remove_economy (gid : Z) (w : World) : bool * World :=
  (true, set_economies
           (filter (fun e => guild_id e ≠ gid) (economies w)) w).

(** [Database.log_transfer]. The amounts and the rate are taken to be
    numbers: a NaN among them would be stored as NULL and the row refused. *)
Definition log_transfer (uid from_g to_g : Z) (a_src a_tgt : pyfloat)
    (c_src c_tgt wallet : string) (rate : pyfloat) (w : World) : bool * World :=
  (true, add_transfer
           (mkTransferRecord uid from_g to_g a_src a_tgt c_src c_tgt wallet
                             (now w) rate) w).

(** [Database.log_action]. *)
Definition log_action (action : string) (uid : Z) (gid : option Z)
    (details : AuditDetails) (w : World) : bool * World :=
  (true, add_audit (mkAudit action uid gid details (now w)) w).

(** [Database.is_officer]. *)
Definition is_officer (uid : Z) (w : World) : bool :=
  if negb (sqlite_integer uid) then false
  else existsb (fun o => officer_id o =? uid) (approved_officers w).

(** A database call inside a coroutine. *)
Definition db_call {A} (f : World -> A * World) : Coro A := fun w => Some (f w).

(** ** cogs/admin.py *)

(** [AdminCommands.is_officer_or_owner]. *)
Definition is_officer_or_owner (uid : Z) (w : World) : bool :=
  if uid =? owner_user_id (config w) then true
  else if db_loaded w then is_officer uid w
  else false.

Inductive KickReply :=
| KickNotAuthorized
| KickDatabaseNotAvailable
| KickServerNotFound
| KickRemoved
| KickFailed.

(** [AdminCommands.kick_economy] (the notice posted in the removed guild is
    presentation and is left out). *)
Definition kick_economy (uid : Z) (server_name reason : string) (w : World)
  : KickReply * World :=
  if negb (is_officer_or_owner uid w) then (KickNotAuthorized, w)
  else if negb (db_loaded w) then (KickDatabaseNotAvailable, w)
  else
    match find (fun e => String.eqb (lower (guild_name e)) (lower server_name))
               (get_all_economies (Some "approved") w) with
    | None => (KickServerNotFound, w)
    | Some target =>
        let '(success, w1) := remove_economy (guild_id target) w in
        if success then
          (KickRemoved,
           snd (log_action "economy_kicked" uid (Some (guild_id target))
                           (KickReason reason) w1))
        else (KickFailed, w1)
    end.

(** ** cogs/economy.py: the approval view *)

Inductive ApprovalReply :=
| DatabaseNotAvailable
| NotAuthorized
| Decided
| DecisionFailed.

(** [ApprovalView.approve_button]; the view holds [guild_id], [uid] is
    [interaction.user.id]. *)
Definition approve_button (view_guild uid : Z) (w : World) : ApprovalReply * World :=
  if negb (db_loaded w) then (DatabaseNotAvailable, w)
  else if negb (is_officer uid w) then (NotAuthorized, w)
  else
    let '(success, w1) := update_economy_status view_guild "approved" (Some uid) w in
    if success then
      (Decided, snd (log_action "economy_approved" uid (Some view_guild) NoDetails w1))
    else (DecisionFailed, w1).

(** [ApprovalView.reject_button]. *)
Definition reject_button (view_guild uid : Z) (w : World) : ApprovalReply * World :=
  if negb (db_loaded w) then (DatabaseNotAvailable, w)
  else if negb (is_officer uid w) then (NotAuthorized, w)
  else
    let '(success, w1) := update_economy_status view_guild "rejected" None w in
    if success then
      (Decided, snd (log_action "economy_rejected" uid (Some view_guild) NoDetails w1))
    else (DecisionFailed, w1).

(** ** cogs/transfer.py *)

(** The state a [ConfirmTransferView] is built with. *)
Record ConfirmTransferView := mkView {
  view_user_id : Z;
  source_economy : Economy;
  target_economy : Economy;
  amount : pyfloat;
  target_amount : pyfloat;
  wallet_type : string
}.

(** What [transfer] answers; [RaisedZeroDivisionError] is the exception that
    leaves the command when the source rate is zero. *)
Inductive TransferReply :=
| ServicesNotAvailable
| InvalidWalletType
| AmountOutOfRange
| SourceNotFound
| TargetNotFound
| SameServer
| InsufficientBalance
| Confirmation (view : ConfirmTransferView)
| RaisedZeroDivisionError.

(** The [for economy in economies] loop: the last row whose lower-cased name
    matches wins, for the source and for the target. *)
Definition find_economies (source_server target_server : string)
    (l : list Economy) : option Economy * option Economy :=
  fold_left
    (fun st economy =>
       let s := if String.eqb (lower (guild_name economy)) (lower source_server)
                then Some economy else fst st in
       let t := if String.eqb (lower (guild_name economy)) (lower target_server)
                then Some economy else snd st in
       (s, t))
    l (None, None).

(** The two lines under [# Calculate conversion]. *)
Definition convert (amt rate_source rate_target : pyfloat) : option pyfloat :=
  match py_truediv amt rate_source with
  | Some amount_usd => Some (py_mul amount_usd rate_target)
  | None => None
  end.

(** [TransferCommands.transfer]; [uid] is [interaction.user.id]. *)
Definition transfer (depth : nat) (uid : Z) (target_server source_server : string)
    (amt : pyfloat) (wallet : string) : Coro TransferReply :=
  fun w =>
    if (negb (db_loaded w) || negb (unb_loaded w))%bool
    then Some (ServicesNotAvailable, w)
    else
      let wallet := lower wallet in
      if negb (String.eqb wallet "cash" || String.eqb wallet "bank")%bool
      then Some (InvalidWalletType, w)
      else
        let min_amount := min_transfer_amount (config w) in
        let max_amount := max_transfer_amount (config w) in
        if (py_lt amt min_amount || py_gt amt max_amount)%bool
        then Some (AmountOutOfRange, w)
        else
          match find_economies source_server target_server
                  (get_all_economies (Some "approved") w) with
          | (None, _) => Some (SourceNotFound, w)
          | (Some _, None) => Some (TargetNotFound, w)
          | (Some source, Some target) =>
              if guild_id source =? guild_id target then Some (SameServer, w)
              else
                (await has_balance <~
                   user_has_sufficient_balance depth (guild_id source) uid amt wallet ;
                 if negb has_balance then ret InsufficientBalance
                 else
                   match convert amt (rate_usd source) (rate_usd target) with
                   | None => ret RaisedZeroDivisionError
                   | Some tgt_amount =>
                       ret (Confirmation
                              (mkView uid source target amt tgt_amount wallet))
                   end) w
          end.

(** What pressing [Confirm Transfer] answers. [RaisedAttributeError] is the
    exception of calling a method of a missing UnbelievaBoat cog, outside the
    [try]. *)
Inductive ConfirmReply :=
| NotYourTransfer
| RaisedAttributeError
| InsufficientCancelled
| DebitFailed
| RolledBack            (* "Failed to add to target account. Transfer rolled back." *)
| TransferComplete
| TransferErrorOccurred. (* "An error occurred during the transfer." *)

(** The keyword arguments of a [modify_user_balance] call on one wallet:
    [cash_change=d] when the wallet is ['cash'], [bank_change=d] otherwise. *)
Definition on_wallet (wallet : string) (d : pyfloat) : option pyfloat * option pyfloat :=
  if String.eqb wallet "cash" then (Some d, None) else (None, Some d).

(** [unb.modify_user_balance(guild, user, <wallet>_change=d, reason=...)]. *)
Definition modify_wallet (depth : nat) (g u : Z) (wallet : string) (d : pyfloat)
    (reason : string) : Coro (option Balance) :=
  modify_user_balance depth g u (fst (on_wallet wallet d)) (snd (on_wallet wallet d))
    reason.

(** The three ledger calls of [confirm]: [# Deduct from source],
    [# Add to target] and [# Rollback: add money back to source]. *)
Definition debit (depth : nat) (v : ConfirmTransferView) (uid : Z) : Coro (option Balance) :=
  modify_wallet depth (guild_id (source_economy v)) uid (wallet_type v)
    (py_neg (amount v)) ("Transfer to " ++ guild_name (target_economy v)).

Definition credit (depth : nat) (v : ConfirmTransferView) (uid : Z) : Coro (option Balance) :=
  modify_wallet depth (guild_id (target_economy v)) uid (wallet_type v)
    (target_amount v) ("Transfer from " ++ guild_name (source_economy v)).

Definition rollback (depth : nat) (v : ConfirmTransferView) (uid : Z) : Coro (option Balance) :=
  modify_wallet depth (guild_id (source_economy v)) uid (wallet_type v)
    (amount v) "Transfer rollback".

(** [ConfirmTransferView.confirm]; [uid] is [interaction.user.id]. *)
Definition confirm (depth : nat) (v : ConfirmTransferView) (uid : Z) : Coro ConfirmReply :=
  fun w =>
    if negb (uid =? view_user_id v) then Some (NotYourTransfer, w)
    else if negb (unb_loaded w) then Some (RaisedAttributeError, w)
    else
      (await has_balance <~
         user_has_sufficient_balance depth (guild_id (source_economy v)) uid
           (amount v) (wallet_type v) ;
       if negb has_balance then ret InsufficientCancelled
       else
         await source_result <~ debit depth v uid ;
         match source_result with
         | None => ret DebitFailed
         | Some _ =>
             await target_result <~ credit depth v uid ;
             match target_result with
             | None =>
                 await _ignored <~ rollback depth v uid ;
                 ret RolledBack
             | Some _ =>
                 match py_truediv (rate_usd (target_economy v))
                                  (rate_usd (source_economy v)) with
                 | None => ret TransferErrorOccurred
                 | Some rate =>
                     fun w' =>
                       if negb (db_loaded w') then Some (TransferErrorOccurred, w')
                       else
                         (await _logged <~
                            db_call (log_transfer uid
                                       (guild_id (source_economy v))
                                       (guild_id (target_economy v))
                                       (amount v) (target_amount v)
                                       (currency_name (source_economy v))
                                       (currency_name (target_economy v))
                                       (wallet_type v) rate) ;
                          await _audited <~
                            db_call (log_action "transfer" uid
                                       (Some (guild_id (source_economy v)))
                                       (TransferredTo (amount v)
                                          (guild_name (target_economy v)))) ;
                          ret TransferComplete) w'
                 end
             end
         end) w.

(** ** cogs/database.py: transfer history and officers

    The [limit] handed to SQLite is taken to fit its 64-bit INTEGER. *)

Definition set_transfers (ts : list TransferRecord) (w : World) : World :=
  mkWorld (config w) (db_loaded w) (unb_loaded w) (session w) (now w)
          (economies w) ts (approved_officers w) (audit_log w)
          (ledger w) (replies w) (requests w) (slept w).

Definition set_officers (os : list Officer) (w : World) : World :=
  mkWorld (config w) (db_loaded w) (unb_loaded w) (session w) (now w)
          (economies w) (transfers w) os (audit_log w)
          (ledger w) (replies w) (requests w) (slept w).

(** [ORDER BY timestamp DESC], as a stable insertion sort. *)
Fixpoint insert_by_timestamp (t : TransferRecord) (l : list TransferRecord)
  : list TransferRecord :=
  match l with
  | [] => [t]
  | x :: l' =>
      if tr_timestamp x <=? tr_timestamp t then t :: l
      else x :: insert_by_timestamp t l'
  end.

Definition order_by_timestamp_desc (l : list TransferRecord) : list TransferRecord :=
  foldr insert_by_timestamp [] l.

(** [LIMIT ?]: SQLite puts no bound on the rows when the limit is negative. *)
Definition sql_limit {A} (limit : Z) (l : list A) : list A :=
  if limit <? 0 then l else take (Z.to_nat limit) l.

(** [Database.get_user_transfers]. *)
Definition get_user_transfers (uid limit : Z) (w : World) : list TransferRecord :=
  sql_limit limit
    (order_by_timestamp_desc
       (filter (fun t => tr_user_id t = uid) (transfers w))).

(** The wall clock counts microseconds from 1970-01-01T00:00:00, the
    resolution of [isoformat()]; on these strings the text order of SQLite is
    the order of time. *)
Definition microseconds_per_day : Z := 86400000000.

(** [datetime.min] (0001-01-01T00:00:00) and [datetime.max]
    (9999-12-31T23:59:59.999999). *)
Definition datetime_min : Z := - 719162 * microseconds_per_day.
Definition datetime_max : Z := 2932897 * microseconds_per_day - 1.

(** [(datetime.utcnow() - timedelta(days=days)).isoformat()]; [None] is the
    [OverflowError] of a [timedelta] beyond 999999999 days or of a date
    outside the years 1 to 9999. *)
Definition cutoff_date (current days : Z) : option Z :=
  if 999999999 <? Z.abs days then None
  else
    let cutoff := current - days * microseconds_per_day in
    if (cutoff <? datetime_min) || (datetime_max <? cutoff) then None
    else Some cutoff.

(** [Database.cleanup_old_transfers]; the exception of the date arithmetic
    is caught and answered with 0. *)
Definition cleanup_old_transfers (days : Z) (w : World) : Z * World :=
  match cutoff_date (now w) days with
  | None => (0, w)
  | Some cutoff =>
      let kept := filter (fun t => ¬ (tr_timestamp t < cutoff)) (transfers w) in
      (Z.of_nat (length (transfers w)) - Z.of_nat (length kept),
       set_transfers kept w)
  end.

(** [Database.add_officer]. *)
Definition add_officer (uid by_user : Z) (w : World) : bool * World :=
  if negb (sqlite_integer uid && sqlite_integer by_user) then (false, w)
  else if existsb (fun o => officer_id o =? uid) (approved_officers w)
  then (false, w)
  else
    (true, set_officers (approved_officers w ++ [mkOfficer uid (now w) by_user]) w).

(** [Database.remove_officer]. *)
Definition remove_officer (uid : Z) (w : World) : bool * World :=
  if negb (sqlite_integer uid) then (false, w)
  else
    (true, set_officers
             (filter (fun o => officer_id o ≠ uid) (approved_officers w)) w).

(** [Database.get_all_officers]. *)
Definition get_all_officers (w : World) : list Officer := approved_officers w.

(** ** cogs/economy.py: withdrawal *)

Inductive WithdrawReply :=
| WithdrawDatabaseNotAvailable
| NotPartOfEconomy
| ConfirmWithdrawal (view_guild view_user : Z).

(** [EconomyCommands.withdraw]; [gid] is [interaction.guild_id]. The
    administrator check of the decorator is made by discord.py before the
    command runs. *)
Definition withdraw (gid uid : Z) (w : World) : WithdrawReply :=
  if negb (db_loaded w) then WithdrawDatabaseNotAvailable
  else
    match get_economy gid w with
    | None => NotPartOfEconomy
    | Some _ => ConfirmWithdrawal gid uid
    end.

(** [WithdrawRaisedAttributeError] is the exception of calling
    [remove_economy] on a missing Database cog. *)
Inductive WithdrawConfirmReply :=
| OnlyInitiatorCanConfirm
| WithdrawRaisedAttributeError
| Withdrawn
| WithdrawFailed.

(** [ConfirmWithdrawView.confirm]. *)
Definition confirm_withdrawal (view_guild view_user uid : Z) (w : World)
  : WithdrawConfirmReply * World :=
  if negb (uid =? view_user) then (OnlyInitiatorCanConfirm, w)
  else if negb (db_loaded w) then (WithdrawRaisedAttributeError, w)
  else
    let '(success, w1) := remove_economy view_guild w in
    if success then
      (Withdrawn,
       snd (log_action "economy_withdraw" uid (Some view_guild) NoDetails w1))
    else (WithdrawFailed, w1).

(** ** Autocompletion ([cogs/transfer.py], [cogs/admin.py]) *)

(** [needle in hay] on strings. *)
Fixpoint contains (needle hay : string) : bool :=
  if String.prefix needle hay then true
  else
    match hay with
    | EmptyString => false
    | String _ hay' => contains needle hay'
    end.

(** The list comprehension and the [filtered[:25]] choices, as (name, value)
    pairs. *)
Definition server_choices (current : string) (l : list Economy)
  : list (string * string) :=
  map (fun e => (guild_name e, guild_name e))
      (take 25 (filter (fun e => contains (lower current) (lower (guild_name e)) = true) l)).

(** [TransferCommands.source_server_autocomplete]. *)
Definition source_server_autocomplete (current : string) (w : World)
  : list (string * string) :=
  if negb (db_loaded w) then []
  else server_choices current (get_all_economies (Some "approved") w).

(** [TransferCommands.target_server_autocomplete]. *)
Definition target_server_autocomplete (current : string) (w : World)
  : list (string * string) :=
  if negb (db_loaded w) then []
  else server_choices current (get_all_economies (Some "approved") w).

(** [AdminCommands.kick_server_autocomplete]. *)
Definition kick_server_autocomplete (uid : Z) (current : string) (w : World)
  : list (string * string) :=
  if negb (is_officer_or_owner uid w) then []
  else if negb (db_loaded w) then []
  else server_choices current (get_all_economies (Some "approved") w).

(** * Vocabulary of the statements *)

(** What no ledger call changes: configuration, cogs, tables, reply script. *)
Definition client_frame (w w' : World) : Prop :=
  config w' = config w ∧ db_loaded w' = db_loaded w ∧
  unb_loaded w' = unb_loaded w ∧ session w' = session w ∧ now w' = now w ∧
  economies w' = economies w ∧ transfers w' = transfers w ∧
  approved_officers w' = approved_officers w ∧ audit_log w' = audit_log w ∧
  replies w' = replies w.

(** A reply that makes [_make_request] call itself again. *)
Definition throttled (r : Reply) : bool :=
  match r with
  | Status429 h => match retry_after h with Some _ => true | None => false end
  | _ => false
  end.

(** The reply that ends a call whose first request is the [i]-th of the
    script: the first reply from there on that is not a throttling one, if
    it comes before the room for nested calls is used up. *)
Fixpoint closing_reply (depth : nat) (script : nat → Reply) (i : nat)
  : option Reply :=
  if throttled (script i) then
    match depth with
    | O => None
    | S depth' => closing_reply depth' script (S i)
    end
  else Some (script i).

(** The reply that ends a call made in [w]. *)
Definition answer (depth : nat) (w : World) : option Reply :=
  closing_reply depth (replies w) (length (requests w)).

(** ** Two economies and one account, for the scenarios *)

Definition alpha : Economy :=
  mkEconomy 1 "Alpha" "alphas" "A$" 10%float "approved" None 100 5 (Some 6) (Some 42).

Definition beta : Economy :=
  mkEconomy 2 "Beta" "betas" "B$" 5%float "approved" None 101 7 (Some 8) (Some 42).

(** An application that waits for a decision. *)
Definition gamma : Economy :=
  mkEconomy 3 "Gamma" "gammas" "G$" 2%float "pending" None 102 9 None None.

(** User 7 holds 250 in cash and 40 in the bank at Alpha and nothing at Beta;
    user 99 owns the bot and user 42 is the only officer. *)
Definition scenario_world (script : nat → Reply) : World :=
  mkWorld (default_config 99) true true true 1000 [alpha; beta; gamma] []
          [mkOfficer 42 1 99] []
          {[ (1, 7) := mkBalance 250%float 40%float 290%float ]}
          script [] [].

Definition always (r : Reply) : nat → Reply := fun _ => r.

(** Every request is answered 200 but the listed ones, answered 404. *)
Definition failing_at (l : list nat) : nat → Reply :=
  fun n => if existsb (Nat.eqb n) l then Status404 else Status200.

(** The wallet a transfer works on: ['cash'], and the bank for any other name
    (the [else] branches of [confirm]). *)
Definition wallet_of (wallet : string) (b : Balance) : pyfloat :=
  if String.eqb wallet "cash" then cash b else bank b.

Definition other_wallet_of (wallet : string) (b : Balance) : pyfloat :=
  if String.eqb wallet "cash" then bank b else cash b.

(** The last row of a list with the given name, case-insensitively. *)
Definition lookup_by_name (name : string) (l : list Economy) : option Economy :=
  last (filter (fun e => lower (guild_name e) = lower name) l).

(** Some approved economy of the table has the given name. *)
Definition approved_named (name : string) (w : World) : Prop :=
  ∃ e, e ∈ economies w ∧ status e = "approved" ∧
       lower (guild_name e) = lower name.

(** The Validate stage of the saga refuses the request. *)
Definition validate_rejects (source_server target_server : string)
    (amt : pyfloat) (wallet : string) (w : World) : Prop :=
  (lower wallet ≠ "cash" ∧ lower wallet ≠ "bank") ∨
  py_lt amt (min_transfer_amount (config w)) = true ∨
  py_gt amt (max_transfer_amount (config w)) = true ∨
  ¬ approved_named source_server w ∨
  ¬ approved_named target_server w ∨
  (∃ s t, lookup_by_name source_server (get_all_economies (Some "approved") w) = Some s ∧
          lookup_by_name target_server (get_all_economies (Some "approved") w) = Some t ∧
          guild_id s = guild_id t).

(** The answers of [transfer] that come before any ledger call. *)
Definition early_rejection (r : TransferReply) : Prop :=
  r = ServicesNotAvailable ∨ r = InvalidWalletType ∨ r = AmountOutOfRange ∨
  r = SourceNotFound ∨ r = TargetNotFound ∨ r = SameServer.

(** The view that [transfer] builds for 100 in cash from Alpha to Beta. *)
Definition scenario_view : ConfirmTransferView :=
  mkView 7 alpha beta 100%float 50%float "cash".

(** What [update_economy_status] makes of a row with the given id. *)
Definition updated_row (st : string) (by_user : option Z) (at_time : Z)
    (e : Economy) : Economy :=
  match String.eqb st "approved", truthy_id by_user with
  | true, Some officer => with_approval st at_time officer e
  | _, _ => with_status st e
  end.

(** ** What a run of ledger calls may have done *)

Local Close Scope string_scope.

Definition is_api_delay (d : Delay) : bool :=
  match d with
  | ApiDelay _ => true
  | RetryDelay _ => false
  end.

(** The rate-limit sleeps among a list of sleeps. *)
Definition api_sleeps (ds : list Delay) : nat :=
  length (filter (fun d => is_api_delay d = true) ds).

(** From [w] to [w'] the client has only sent requests for user [uid] in the
    guilds [guilds], has slept [api_delay] once per request, and has left
    every other account of the ledger and the bot's own state alone. *)
Definition client_effect (uid : Z) (guilds : list Z) (w w' : World) : Prop :=
  client_frame w w' ∧
  (∃ rs ds,
     requests w' = requests w ++ rs ∧
     slept w' = slept w ++ ds ∧
     api_sleeps ds = length rs ∧
     Forall (fun d => ∀ s, d = ApiDelay s → s = api_delay (config w)) ds ∧
     Forall (fun r => req_user r = uid ∧ req_guild r ∈ guilds) rs) ∧
  (∀ g u, u ≠ uid ∨ g ∉ guilds → ledger w' !! (g, u) = ledger w !! (g, u)).

(** From [w] to [w'] nothing was written: the ledger is the same and the
    requests sent are GETs. *)
Definition read_only (w w' : World) : Prop :=
  ledger w' = ledger w ∧
  ∃ rs, requests w' = requests w ++ rs ∧ Forall (fun r => req_method r = GET) rs.

(** ** The tables *)

(** No two rows of the registry share a guild id (the primary key). *)
Definition unique_ids (w : World) : Prop := NoDup (guild_id <$> economies w).

(** The writes of the registry. *)
Inductive RegistryOp :=
| Register (gid : Z) (name cname csymbol : string) (rate : pyfloat)
           (by_user : Z) (note : option string)
| SetStatus (gid : Z) (st : string) (by_user : option Z)
| Remove (gid : Z).

Definition registry_step (w : World) (op : RegistryOp) : World :=
  match op with
  | Register gid name cname csymbol rate by_user note =>
      snd (add_economy gid name cname csymbol rate by_user note w)
  | SetStatus gid st by_user => snd (update_economy_status gid st by_user w)
  | Remove gid => snd (remove_economy gid w)
  end.

(** Latest first. *)
Definition latest_first {A} (key : A → Z) (a b : A) : Prop := key b ≤ key a.

(** Insertion in a list kept latest first, for any key. *)
Fixpoint insert_latest {A} (key : A → Z) (e : A) (l : list A) : list A :=
  match l with
  | [] => [e]
  | x :: l' => if key x <=? key e then e :: l else x :: insert_latest key e l'
  end.

(** The rows that [get_all_economies] selects, in table order. *)
Definition selected_economies (st : option string) (w : World) : list Economy :=
  match st with
  | Some s =>
      if String.eqb s "" then economies w
      else filter (fun e => status e = s) (economies w)
  | None => economies w
  end.

(** ** The runs of [confirm] *)

(** The world after the two log calls of a completed transfer. *)
Definition logged (v : ConfirmTransferView) (uid : Z) (rate : pyfloat)
    (w : World) : World :=
  snd (log_action "transfer" uid (Some (guild_id (source_economy v)))
         (TransferredTo (amount v) (guild_name (target_economy v)))
         (snd (log_transfer uid (guild_id (source_economy v))
                 (guild_id (target_economy v)) (amount v) (target_amount v)
                 (currency_name (source_economy v))
                 (currency_name (target_economy v))
                 (wallet_type v) rate w))).

(** How a run of [confirm] that starts in [w] can end in [w'] with the
    reply [r]: one constructor for each [return] of the source. *)
Inductive confirm_run (depth : nat) (v : ConfirmTransferView) (uid : Z)
    (w : World) : ConfirmReply → World → Prop :=
| run_not_yours :
    uid ≠ view_user_id v →
    confirm_run depth v uid w NotYourTransfer w
| run_no_cog :
    uid = view_user_id v → unb_loaded w = false →
    confirm_run depth v uid w RaisedAttributeError w
| run_insufficient w1 :
    uid = view_user_id v → unb_loaded w = true →
    user_has_sufficient_balance depth (guild_id (source_economy v)) uid
      (amount v) (wallet_type v) w = Some (false, w1) →
    confirm_run depth v uid w InsufficientCancelled w1
| run_debit_failed w1 w2 :
    uid = view_user_id v → unb_loaded w = true →
    user_has_sufficient_balance depth (guild_id (source_economy v)) uid
      (amount v) (wallet_type v) w = Some (true, w1) →
    debit depth v uid w1 = Some (None, w2) →
    confirm_run depth v uid w DebitFailed w2
| run_rolled_back w1 sr w2 w3 rb w4 :
    uid = view_user_id v → unb_loaded w = true →
    user_has_sufficient_balance depth (guild_id (source_economy v)) uid
      (amount v) (wallet_type v) w = Some (true, w1) →
    debit depth v uid w1 = Some (Some sr, w2) →
    credit depth v uid w2 = Some (None, w3) →
    rollback depth v uid w3 = Some (rb, w4) →
    confirm_run depth v uid w RolledBack w4
| run_error w1 sr w2 tr w3 :
    uid = view_user_id v → unb_loaded w = true →
    user_has_sufficient_balance depth (guild_id (source_economy v)) uid
      (amount v) (wallet_type v) w = Some (true, w1) →
    debit depth v uid w1 = Some (Some sr, w2) →
    credit depth v uid w2 = Some (Some tr, w3) →
    py_truediv (rate_usd (target_economy v)) (rate_usd (source_economy v)) = None
    ∨ db_loaded w3 = false →
    confirm_run depth v uid w TransferErrorOccurred w3
| run_complete w1 sr w2 tr w3 rate :
    uid = view_user_id v → unb_loaded w = true →
    user_has_sufficient_balance depth (guild_id (source_economy v)) uid
      (amount v) (wallet_type v) w = Some (true, w1) →
    debit depth v uid w1 = Some (Some sr, w2) →
    credit depth v uid w2 = Some (Some tr, w3) →
    py_truediv (rate_usd (target_economy v)) (rate_usd (source_economy v))
      = Some rate →
    db_loaded w3 = true →
    confirm_run depth v uid w TransferComplete (logged v uid rate w3).

(** * Properties *)

Local Close Scope string_scope.

(** ** The client leaves the bot's own state alone *)

Lemma client_frame_refl w : client_frame w w.
Proof. repeat split. Qed.

Lemma client_frame_trans w1 w2 w3 :
  client_frame w1 w2 → client_frame w2 w3 → client_frame w1 w3.
Proof.
  unfold client_frame. intros H12 H23.
  destruct H12 as (?&?&?&?&?&?&?&?&?&?), H23 as (?&?&?&?&?&?&?&?&?&?).
  repeat split; congruence.
Qed.

Ltac invert_some :=
  repeat match goal with
         | H : Some _ = Some _ |- _ => inversion H; subst; clear H
         | H : (_, _) = (_, _) |- _ => inversion H; subst; clear H
         | H : None = Some _ |- _ => discriminate H
         | H : Some _ = None |- _ => discriminate H
         end.

(** ** [_make_request]: one request per attempt *)

Lemma make_request_inv depth m g u j : ∀ w res w',
  _make_request depth m g u j w = Some (res, w') →
  client_frame w w' ∧
  (∃ k, requests w' = requests w ++ replicate k (mkRequest m g u j)) ∧
  (ledger w' = ledger w ∨
   ledger w' = snd (remote_apply (mkRequest m g u j) (ledger w))) ∧
  ∀ d, res = Some (Account d) →
       (d, ledger w') = remote_apply (mkRequest m g u j) (ledger w).
Proof.
  induction depth as [|depth IH]; intros w res w' H; simpl in H.
  all: destruct (session w) eqn:Hs; simpl in H;
    [|invert_some; split; [apply client_frame_refl|];
      split; [exists 0%nat; simpl; by rewrite app_nil_r|];
      split; [by left | done]].
  all: destruct (replies w (length (requests w))) as [| | |h| | | |] eqn:Hr;
    try (invert_some; split; [repeat split|];
         split; [by exists 1%nat|]; split; [by left | done]).
  all: try (destruct (remote_apply _ _) as [data l] eqn:Ha; invert_some;
            split; [repeat split|]; split; [by exists 1%nat|];
            split; [by right|]; by intros d [= <-]).
  all: try (invert_some; split; [repeat split|]; split; [by exists 1%nat|];
            split; [by right | done]).
  all: destruct (retry_after h) as [n|];
    [|invert_some; split; [repeat split|];
      split; [by exists 1%nat|]; split; [by left | done]].
  - invert_some. split; [repeat split|].
    split; [by exists 1%nat|]. split; [by left | done].
  - apply IH in H as (Hf & (k & Hk) & Hl & Hres). simpl in *.
    split; [exact Hf|]. split; [|split; [exact Hl | exact Hres]].
    exists (S k). rewrite Hk, <- app_assoc. done.
Qed.

Lemma closing_reply_not_throttled depth script : ∀ i r,
  closing_reply depth script i = Some r → throttled r = false.
Proof.
  induction depth as [|depth IH]; intros i r; simpl;
    destruct (throttled (script i)) eqn:Ht; try discriminate;
    try (intros [= <-]; exact Ht).
  apply IH.
Qed.

(** What a call made with the session set answers, by the reply that ends
    it: data on a 200 that can be read, [None] otherwise; and the request
    has been applied on every 200. *)
Lemma make_request_answer m g u j : ∀ depth w,
  session w = true →
  ∃ w',
    _make_request depth m g u j w
      = Some (match answer depth w with
              | Some Status200 =>
                  Some (Account (fst (remote_apply (mkRequest m g u j) (ledger w))))
              | Some Status200Empty => Some Empty
              | _ => None
              end, w') ∧
    ledger w' = match answer depth w with
                | Some Status200 | Some Status200Empty | Some Status200Unreadable =>
                    snd (remote_apply (mkRequest m g u j) (ledger w))
                | _ => ledger w
                end.
Proof.
  unfold answer.
  induction depth as [|depth IH]; intros w Hs; simpl; rewrite Hs; simpl.
  all: destruct (replies w (length (requests w))) as [| | |h| | | |] eqn:Hr;
    simpl; try (eexists; split; [reflexivity | reflexivity]).
  all: try (destruct (remote_apply _ _) as [data l];
            eexists; split; [reflexivity | reflexivity]).
  all: destruct (retry_after h) as [n|];
    try (eexists; split; [reflexivity | reflexivity]).
  set (w3 := sleep (RetryDelay n) _).
  destruct (IH w3 Hs) as (w' & Hrun & Hl).
  assert (Hlen : length (requests w3) = S (length (requests w))).
  { subst w3. simpl. rewrite length_app. simpl. lia. }
  rewrite Hlen in Hrun, Hl. exists w'. split; [exact Hrun | exact Hl].
Qed.

(** Every call returns. *)
Lemma make_request_total depth m g u j w :
  ∃ res w', _make_request depth m g u j w = Some (res, w').
Proof.
  destruct (session w) eqn:Hs.
  - destruct (make_request_answer m g u j depth w Hs) as (w' & H & _). eauto.
  - exists None, w. destruct depth; simpl; by rewrite Hs.
Qed.

(** The number of requests of a call: one per throttling reply met, plus one
    for the reply that ends it; [depth + 1] when there is no such reply. *)
Lemma make_request_count m g u j : ∀ depth w res w',
  session w = true →
  _make_request depth m g u j w = Some (res, w') →
  ∃ k, (k ≤ depth)%nat ∧
       requests w' = requests w ++ replicate (S k) (mkRequest m g u j) ∧
       (∀ i, (i < k)%nat →
             throttled (replies w (length (requests w) + i)%nat) = true) ∧
       (answer depth w = None →
        k = depth ∧ throttled (replies w (length (requests w) + k)%nat) = true) ∧
       (∀ r, answer depth w = Some r →
             r = replies w (length (requests w) + k)%nat).
Proof.
  unfold answer.
  induction depth as [|depth IH]; intros w res w' Hs H; simpl in H;
    rewrite Hs in H; simpl in H; simpl.
  all: destruct (replies w (length (requests w))) as [| | |h| | | |] eqn:Hr;
    simpl;
    try (destruct (remote_apply _ _) as [data l]);
    try (invert_some; exists 0%nat; rewrite Nat.add_0_r, Hr;
         split; [lia|]; split; [done|]; split; [intros i Hi; lia|];
         split; [done | by intros r [= <-]]).
  all: destruct (retry_after h) as [n|] eqn:Hh;
    try (invert_some; exists 0%nat; rewrite Nat.add_0_r, Hr;
         split; [lia|]; split; [done|]; split; [intros i Hi; lia|];
         split; [done | by intros r [= <-]]).
  - invert_some. exists 0%nat. rewrite Nat.add_0_r, Hr. simpl. rewrite Hh.
    split; [lia|]. split; [done|]. split; [intros i Hi; lia|].
    split; [done | discriminate].
  - set (w3 := sleep (RetryDelay n) _) in H.
    assert (Hlen : length (requests w3) = S (length (requests w))).
    { subst w3. simpl. rewrite length_app. simpl. lia. }
    apply IH in H as (k & Hk & Hreq & Hbefore & Hnone & Hsome); [|done].
    rewrite Hlen in Hbefore, Hnone, Hsome.
    assert (Hshift : ∀ i, (S (length (requests w)) + i
                           = length (requests w) + S i)%nat) by (intros; lia).
    exists (S k). split; [lia|]. split; [|split; [|split]].
    + rewrite Hreq. subst w3. simpl. by rewrite <- app_assoc.
    + intros [|i] Hi.
      * rewrite Nat.add_0_r, Hr. simpl. by rewrite Hh.
      * rewrite <- Hshift. apply Hbefore. lia.
    + intros Hn. destruct (Hnone Hn) as [-> Ht]. split; [done|].
      by rewrite <- Hshift.
    + intros r Hr'. rewrite <- Hshift. by apply Hsome.
Qed.




(** ** Balance operations *)

Lemma balance_eta (d : Balance) : mkBalance (cash d) (bank d) (total d) = d.
Proof. by destruct d. Qed.

Lemma get_user_balance_inv depth g u w res w' :
  get_user_balance depth g u w = Some (res, w') →
  client_frame w w' ∧ ledger w' = ledger w ∧
  (∃ k, requests w' = requests w ++ replicate k (mkRequest GET g u None)) ∧
  (∀ b, res = Some b → b = balance_of (ledger w) g u).
Proof.
  unfold get_user_balance, bind, ret. intros H.
  destruct (_make_request depth GET g u None w) as [[data w1]|] eqn:Hreq; [|discriminate].
  apply make_request_inv in Hreq as (Hf & Hk & Hl & Hres).
  assert (Hl' : ledger w1 = ledger w) by (by destruct Hl).
  destruct data as [[d|]|]; invert_some.
  - specialize (Hres d eq_refl). unfold remote_apply in Hres. simpl in Hres.
    invert_some. split; [done|]. split; [done|]. split; [done|].
    intros b Hb. invert_some. apply balance_eta.
  - split; [done|]. split; [done|]. split; [done|]. intros b Hb. discriminate.
  - split; [done|]. split; [done|]. split; [done|]. intros b Hb. discriminate.
Qed.

(** The read, by the reply that ends it. *)
Lemma get_user_balance_answer depth g u w :
  session w = true →
  ∃ w', get_user_balance depth g u w
        = Some (match answer depth w with
                | Some Status200 => Some (balance_of (ledger w) g u)
                | _ => None
                end, w').
Proof.
  intros Hs. unfold get_user_balance, bind, ret.
  destruct (make_request_answer GET g u None depth w Hs) as (w' & -> & _).
  exists w'. destruct (answer depth w) as [[]|]; try reflexivity.
  simpl. by rewrite balance_eta.
Qed.

Lemma get_user_balance_total depth g u w :
  ∃ res w', get_user_balance depth g u w = Some (res, w').
Proof.
  unfold get_user_balance, bind, ret.
  destruct (make_request_total depth GET g u None w) as (res & w' & ->).
  destruct res as [[d|]|]; eauto.
Qed.

(** A read that succeeds was made with the session set. *)
Lemma get_user_balance_session depth g u w cur w' :
  get_user_balance depth g u w = Some (Some cur, w') → session w = true.
Proof.
  unfold get_user_balance, bind, ret. intros H.
  destruct (session w) eqn:Hs; [done|].
  assert (Hn : _make_request depth GET g u None w = Some (None, w))
    by (destruct depth; simpl; by rewrite Hs).
  rewrite Hn in H. discriminate.
Qed.

Lemma set_user_balance_inv depth g u c b reason w res w' :
  set_user_balance depth g u (Some c) (Some b) reason w = Some (res, w') →
  client_frame w w' ∧
  (∃ k, requests w' = requests w ++
          replicate k (mkRequest PATCH g u (Some (mkPatch (Some c) (Some b) reason)))) ∧
  (ledger w' = ledger w ∨
   ledger w' = <[(g, u) := mkBalance c b (py_add c b)]> (ledger w)) ∧
  (∀ snap, res = Some snap →
           snap = mkBalance c b (py_add c b) ∧
           ledger w' = <[(g, u) := snap]> (ledger w)).
Proof.
  unfold set_user_balance, bind, ret. intros H.
  destruct (_make_request depth PATCH g u _ w) as [[data w1]|] eqn:Hreq; [|discriminate].
  apply make_request_inv in Hreq as (Hf & Hk & Hl & Hres).
  split; [by destruct data as [[d|]|]; invert_some|].
  split; [by destruct data as [[d|]|]; invert_some|].
  split; [by destruct data as [[d|]|]; invert_some|].
  intros snap ->. destruct data as [[d|]|]; invert_some.
  specialize (Hres d eq_refl). unfold remote_apply in Hres. simpl in Hres.
  injection Hres as -> Hl'. simpl. by rewrite Hl'.
Qed.

(** The write, by the reply that ends it: a snapshot on a 200 that can be
    read, and the new balance in the ledger on every 200. *)
Lemma set_user_balance_answer depth g u c b reason w :
  session w = true →
  ∃ w' k,
    set_user_balance depth g u (Some c) (Some b) reason w
      = Some (match answer depth w with
              | Some Status200 => Some (mkBalance c b (py_add c b))
              | _ => None
              end, w') ∧
    requests w' = requests w ++
      replicate (S k) (mkRequest PATCH g u (Some (mkPatch (Some c) (Some b) reason))) ∧
    ledger w' = match answer depth w with
                | Some Status200 | Some Status200Empty | Some Status200Unreadable =>
                    <[(g, u) := mkBalance c b (py_add c b)]> (ledger w)
                | _ => ledger w
                end.
Proof.
  intros Hs. unfold set_user_balance, bind, ret.
  destruct (make_request_answer PATCH g u (Some (mkPatch (Some c) (Some b) reason))
              depth w Hs) as (w' & Hrun & Hl).
  destruct (make_request_count _ _ _ _ _ _ _ _ Hs Hrun) as (k & _ & Hreq & _).
  rewrite Hrun. exists w', k.
  split; [by destruct (answer depth w) as [[]|]|]. split; [exact Hreq|].
  rewrite Hl. by destruct (answer depth w) as [[]|].
Qed.

(** [modify_user_balance] unfolded along the result of its read. *)
Lemma modify_user_balance_unfold depth g u dc db reason w :
  modify_user_balance depth g u dc db reason w =
  match get_user_balance depth g u w with
  | None => None
  | Some (None, w1) => Some (None, w1)
  | Some (Some cur, w1) =>
      if (py_lt (add_change (cash cur) dc) 0%float
          || py_lt (add_change (bank cur) db) 0%float)%bool
      then Some (None, w1)
      else set_user_balance depth g u (Some (add_change (cash cur) dc))
             (Some (add_change (bank cur) db)) reason w1
  end.
Proof.
  unfold modify_user_balance, bind at 1.
  destruct (get_user_balance depth g u w) as [[[cur|] w1]|]; try reflexivity.
  simpl. by destruct (_ || _)%bool.
Qed.

(** What [modify_user_balance] has done to the ledger: nothing, or the
    write of the two new wallets, which are not negative. A snapshot comes
    back only with the write. *)
Lemma modify_user_balance_inv depth g u dc db reason w res w' :
  modify_user_balance depth g u dc db reason w = Some (res, w') →
  let cur := balance_of (ledger w) g u in
  let new_cash := add_change (cash cur) dc in
  let new_bank := add_change (bank cur) db in
  let new := mkBalance new_cash new_bank (py_add new_cash new_bank) in
  client_frame w w' ∧
  (ledger w' = ledger w ∨
   (py_lt new_cash 0%float = false ∧ py_lt new_bank 0%float = false ∧
    ledger w' = <[(g, u) := new]> (ledger w))) ∧
  (∀ snap, res = Some snap →
           snap = new ∧ ledger w' = <[(g, u) := new]> (ledger w) ∧
           py_lt new_cash 0%float = false ∧ py_lt new_bank 0%float = false).
Proof.
  rewrite modify_user_balance_unfold. intros H cur new_cash new_bank new.
  destruct (get_user_balance depth g u w) as [[[cur'|] w1]|] eqn:Hget;
    [| |discriminate].
  - apply get_user_balance_inv in Hget as (Hf & Hl & _ & Hcur).
    specialize (Hcur cur' eq_refl). subst cur'. fold cur new_cash new_bank in H.
    destruct (py_lt new_cash 0 || py_lt new_bank 0)%bool eqn:Hneg.
    + invert_some. split; [done|]. split; [by left | done].
    + apply orb_false_iff in Hneg as [Hnc Hnb].
      apply set_user_balance_inv in H as (Hf' & _ & Hl' & Hres).
      split; [by eapply client_frame_trans|]. rewrite Hl in Hl'. split.
      * destruct Hl' as [Hl'|Hl']; [by left | by right].
      * intros snap ->. destruct (Hres _ eq_refl) as [-> Hw].
        rewrite Hl in Hw. done.
  - apply get_user_balance_inv in Hget as (Hf & Hl & _). invert_some.
    split; [done|]. split; [by left | done].
Qed.

Lemma modify_user_balance_total depth g u dc db reason w :
  ∃ res w', modify_user_balance depth g u dc db reason w = Some (res, w').
Proof.
  rewrite modify_user_balance_unfold.
  destruct (get_user_balance_total depth g u w) as ([cur|] & w1 & ->); [|eauto].
  destruct (_ || _)%bool; [eauto|].
  unfold set_user_balance, bind, ret.
  destruct (make_request_total depth PATCH g u
              (Some (mkPatch (Some (add_change (cash cur) dc))
                       (Some (add_change (bank cur) db)) reason)) w1)
    as (res & w' & ->).
  destruct res as [[d|]|]; eauto.
Qed.

(** C4. [modify_user_balance] reads the balance with [get_user_balance]; a
    failed read is an error ([None]) and nothing more is sent. Otherwise
    each wallet becomes the value read plus the change given for it. If one
    of them is below zero the call is an error and nothing but the read was
    sent. Otherwise the call is [set_user_balance] on exactly these two
    values: the PATCH carries them, and when it is answered by a 200 that
    can be read the call returns the snapshot that holds them, which is
    what the ledger then stores. *)
Theorem modify_user_balance_spec depth g u dc db reason w :
  ∃ read w1,
    get_user_balance depth g u w = Some (read, w1) ∧
    match read with
    | None => modify_user_balance depth g u dc db reason w = Some (None, w1)
    | Some cur =>
        let new_cash :=
          match dc with Some d => py_add (cash cur) d | None => cash cur end in
        let new_bank :=
          match db with Some d => py_add (bank cur) d | None => bank cur end in
        let snap := mkBalance new_cash new_bank (py_add new_cash new_bank) in
        cur = balance_of (ledger w) g u ∧
        if (py_lt new_cash 0%float || py_lt new_bank 0%float)%bool
        then modify_user_balance depth g u dc db reason w = Some (None, w1) ∧
             ledger w1 = ledger w ∧
             ∃ k, requests w1 = requests w ++ replicate k (mkRequest GET g u None)
        else
          ∃ res w2 k,
            modify_user_balance depth g u dc db reason w = Some (res, w2) ∧
            set_user_balance depth g u (Some new_cash) (Some new_bank) reason w1
              = Some (res, w2) ∧
            requests w2 = requests w1 ++
              replicate (S k)
                (mkRequest PATCH g u
                   (Some (mkPatch (Some new_cash) (Some new_bank) reason))) ∧
            res = match answer depth w1 with
                  | Some Status200 => Some snap
                  | _ => None
                  end ∧
            (res = Some snap → balance_of (ledger w2) g u = snap)
    end.
Proof.
  destruct (get_user_balance_total depth g u w) as (read & w1 & Hget).
  exists read, w1. split; [exact Hget|].
  rewrite modify_user_balance_unfold, Hget.
  destruct read as [cur|]; [|reflexivity].
  pose proof (get_user_balance_session _ _ _ _ _ _ Hget) as Hs.
  apply get_user_balance_inv in Hget as (Hf & Hl & Hk & Hcur).
  assert (Hs1 : session w1 = true).
  { destruct Hf as (_&_&_&Hs1&_). congruence. }
  change (match dc with Some d => py_add (cash cur) d | None => cash cur end)
    with (add_change (cash cur) dc).
  change (match db with Some d => py_add (bank cur) d | None => bank cur end)
    with (add_change (bank cur) db).
  split; [by apply Hcur|].
  destruct (_ || _)%bool; [done|].
  destruct (set_user_balance_answer depth g u (add_change (cash cur) dc)
              (add_change (bank cur) db) reason w1 Hs1)
    as (w2 & k & Hset & Hreq & Hl2).
  eexists _, w2, k. split; [exact Hset|]. split; [exact Hset|].
  split; [exact Hreq|]. split; [reflexivity|].
  destruct (answer depth w1) as [[]|]; try discriminate.
  intros _. unfold balance_of. by rewrite Hl2, lookup_insert_eq.
Qed.

(** 250 in cash and 40 in the bank, changed by -100 and +5. *)
Lemma modify_user_balance_spec_witness :
  let w := scenario_world (always Status200) in
  ∃ w2, modify_user_balance 0 1 7 (Some (-100)%float) (Some 5%float) "r" w
        = Some (Some (mkBalance 150 45 195), w2) ∧
        balance_of (ledger w2) 1 7 = mkBalance 150 45 195.
Proof.
  intros w.
  destruct (modify_user_balance_spec 0 1 7 (Some (-100)%float) (Some 5%float) "r" w)
    as (read & w1 & Hget & H).
  assert (Hread : read = Some (mkBalance 250 40 290)).
  { vm_compute in Hget. by injection Hget as <- _. }
  subst read. destruct H as (_ & res & w2 & k & Hrun & _ & _ & Hres & Hl).
  assert (Ha : answer 0 w1 = Some Status200).
  { vm_compute in Hget. injection Hget as <-. reflexivity. }
  rewrite Ha in Hres. exists w2.
  split; [by rewrite Hrun, Hres | apply Hl; exact Hres].
Defined.

(** C10. With a change given for one wallet only, after a read that
    succeeded and unless the result is negative, every PATCH that is sent
    carries the other wallet exactly as read; the snapshot that a 200
    brings back shows that wallet as it was read, and with or without a
    snapshot the ledger holds it unchanged. *)
Theorem modify_single_change_keeps_other_wallet depth g u d reason w cur w1 :
  get_user_balance depth g u w = Some (Some cur, w1) →
  ((py_lt (py_add (cash cur) d) 0%float || py_lt (bank cur) 0%float)%bool = false →
   ∃ res w2 k,
     modify_user_balance depth g u (Some d) None reason w = Some (res, w2) ∧
     requests w2 = requests w1 ++
       replicate (S k)
         (mkRequest PATCH g u
            (Some (mkPatch (Some (py_add (cash cur) d)) (Some (bank cur)) reason))) ∧
     res = match answer depth w1 with
           | Some Status200 =>
               Some (mkBalance (py_add (cash cur) d) (bank cur)
                       (py_add (py_add (cash cur) d) (bank cur)))
           | _ => None
           end ∧
     bank (balance_of (ledger w2) g u) = bank cur) ∧
  ((py_lt (cash cur) 0%float || py_lt (py_add (bank cur) d) 0%float)%bool = false →
   ∃ res w2 k,
     modify_user_balance depth g u None (Some d) reason w = Some (res, w2) ∧
     requests w2 = requests w1 ++
       replicate (S k)
         (mkRequest PATCH g u
            (Some (mkPatch (Some (cash cur)) (Some (py_add (bank cur) d)) reason))) ∧
     res = match answer depth w1 with
           | Some Status200 =>
               Some (mkBalance (cash cur) (py_add (bank cur) d)
                       (py_add (cash cur) (py_add (bank cur) d)))
           | _ => None
           end ∧
     cash (balance_of (ledger w2) g u) = cash cur).
Proof.
  intros Hget.
  pose proof (get_user_balance_session _ _ _ _ _ _ Hget) as Hs.
  pose proof (get_user_balance_inv _ _ _ _ _ _ Hget) as (Hf & Hl & _ & Hcur).
  specialize (Hcur cur eq_refl).
  assert (Hs1 : session w1 = true).
  { destruct Hf as (_&_&_&Hs1&_). congruence. }
  split; intros Hpos; rewrite modify_user_balance_unfold, Hget; simpl;
    rewrite Hpos.
  - destruct (set_user_balance_answer depth g u (py_add (cash cur) d) (bank cur)
                reason w1 Hs1) as (w2 & k & Hset & Hreq & Hl2).
    eexists _, w2, k. split; [exact Hset|]. split; [exact Hreq|].
    split; [reflexivity|]. unfold balance_of in *. rewrite Hl2.
    destruct (answer depth w1) as [[]|]; rewrite ?lookup_insert_eq, ?Hl; simpl;
      by rewrite ?Hcur.
  - destruct (set_user_balance_answer depth g u (cash cur) (py_add (bank cur) d)
                reason w1 Hs1) as (w2 & k & Hset & Hreq & Hl2).
    eexists _, w2, k. split; [exact Hset|]. split; [exact Hreq|].
    split; [reflexivity|]. unfold balance_of in *. rewrite Hl2.
    destruct (answer depth w1) as [[]|]; rewrite ?lookup_insert_eq, ?Hl; simpl;
      by rewrite ?Hcur.
Qed.

(** The debit of Scenario A: 100 off the 250 in cash, the 40 in the bank
    written back and shown in the snapshot. *)
Lemma modify_single_change_keeps_other_wallet_witness :
  let w := scenario_world (always Status200) in
  ∃ w2,
    modify_user_balance 0 1 7 (Some (-100)%float) None "Transfer to Beta" w
      = Some (Some (mkBalance 150 40 190), w2) ∧
    bank (balance_of (ledger w2) 1 7) = 40%float.
Proof.
  intros w.
  assert (Hget : get_user_balance 0 1 7 w
                 = Some (Some (mkBalance 250 40 290),
                         snd (default (None, w) (get_user_balance 0 1 7 w))))
    by (vm_compute; reflexivity).
  set (w1 := snd _) in Hget.
  destruct (proj1 (modify_single_change_keeps_other_wallet
                     0 1 7 (-100)%float "Transfer to Beta" w _ w1 Hget))
    as (res & w2 & k & Hrun & _ & Hres & Hbank); [vm_compute; reflexivity|].
  assert (Ha : answer 0 w1 = Some Status200) by (vm_compute; reflexivity).
  rewrite Ha in Hres. exists w2. split; [|exact Hbank].
  rewrite Hrun, Hres. vm_compute. reflexivity.
Defined.

(** ** Looking economies up by name *)

Lemma find_economies_acc s t l : ∀ a b,
  fold_left
    (fun st economy =>
       (if String.eqb (lower (guild_name economy)) (lower s)
        then Some economy else fst st,
        if String.eqb (lower (guild_name economy)) (lower t)
        then Some economy else snd st))
    l (a, b)
  = (match lookup_by_name s l with Some e => Some e | None => a end,
     match lookup_by_name t l with Some e => Some e | None => b end).
Proof.
  unfold lookup_by_name.
  induction l as [|x l IH]; intros a b; simpl; [done|].
  rewrite IH, !filter_cons. simpl.
  destruct (String.eqb_spec (lower (guild_name x)) (lower s)) as [Hs|Hs];
    destruct (String.eqb_spec (lower (guild_name x)) (lower t)) as [Ht|Ht];
    repeat case_decide; try done;
    rewrite ?last_cons;
    by repeat match goal with |- context [last ?k] => destruct (last k) end.
Qed.

(** The loop of [transfer] is two look-ups of the last matching row. *)
Lemma find_economies_lookup s t l :
  find_economies s t l = (lookup_by_name s l, lookup_by_name t l).
Proof.
  unfold find_economies. rewrite find_economies_acc.
  by destruct (lookup_by_name s l), (lookup_by_name t l).
Qed.

Lemma lookup_by_name_None name l :
  lookup_by_name name l = None ↔
  ∀ e, e ∈ l → lower (guild_name e) ≠ lower name.
Proof.
  unfold lookup_by_name. rewrite last_None. split.
  - intros Hnil e He Hname.
    assert (e ∈ filter (fun e => lower (guild_name e) = lower name) l) as Hin
      by (apply list_elem_of_filter; done).
    rewrite Hnil in Hin. by apply not_elem_of_nil in Hin.
  - intros Hall. induction l as [|x l IH]; [done|].
    rewrite filter_cons. case_decide as Hx.
    + exfalso. eapply Hall; [left | done].
    + apply IH. intros e He. apply Hall. by right.
Qed.

Lemma elem_of_insert_desc e x l : x ∈ insert_desc e l ↔ x = e ∨ x ∈ l.
Proof.
  induction l as [|y l IH]; simpl.
  - rewrite list_elem_of_singleton. split; [by left | intros [?|H]; [done|]].
    by apply not_elem_of_nil in H.
  - destruct (applied_at y <=? applied_at e).
    + by rewrite elem_of_cons.
    + rewrite !elem_of_cons, IH. tauto.
Qed.

(** Sorting keeps the rows. *)
Lemma elem_of_order_by x l : x ∈ order_by_applied_at_desc l ↔ x ∈ l.
Proof.
  unfold order_by_applied_at_desc. induction l as [|y l IH]; simpl; [done|].
  by rewrite elem_of_insert_desc, IH, elem_of_cons.
Qed.

Lemma approved_lookup_None name w :
  lookup_by_name name (get_all_economies (Some "approved"%string) w) = None ↔
  ¬ approved_named name w.
Proof.
  rewrite lookup_by_name_None. unfold get_all_economies, approved_named. simpl.
  split.
  - intros Hall (e & He & Hst & Hname). apply (Hall e); [|done].
    apply elem_of_order_by, list_elem_of_filter. done.
  - intros Hno e He Hname. apply Hno. exists e.
    apply elem_of_order_by, list_elem_of_filter in He as [Hst He]. done.
Qed.

Ltac rejected :=
  do 2 eexists; split; [reflexivity|]; split;
  [unfold early_rejection; solve [repeat (first [left; reflexivity | right]); reflexivity]
  | done].

(** C5. A request that the Validate stage refuses (wallet other than cash
    and bank, amount below the minimum or above the maximum, no approved
    economy of the source or of the target name, or one economy under both
    names) is answered at once: the world after the call is the world before
    it, so no request was sent and the ledger is as it was. *)
Theorem transfer_validation_sends_nothing depth uid target_server source_server
    amt wallet w :
  validate_rejects source_server target_server amt wallet w →
  ∃ r w', transfer depth uid target_server source_server amt wallet w = Some (r, w') ∧
          early_rejection r ∧ w' = w ∧
          requests w' = requests w ∧ ledger w' = ledger w.
Proof.
  intros Hrej. unfold transfer.
  destruct (negb (db_loaded w) || negb (unb_loaded w))%bool; [rejected|].
  destruct (String.eqb_spec (lower wallet) "cash") as [Hc|Hc];
    destruct (String.eqb_spec (lower wallet) "bank") as [Hb|Hb];
    cbn [orb negb]; try rejected.
  all: destruct (py_lt amt _) eqn:Hmin; cbn [orb]; [rejected|].
  all: destruct (py_gt amt _) eqn:Hmax; [rejected|].
  all: rewrite find_economies_lookup.
  all: destruct (lookup_by_name source_server _) as [s|] eqn:Hs; [|rejected].
  all: destruct (lookup_by_name target_server _) as [t|] eqn:Ht; [|rejected].
  all: destruct (Z.eqb_spec (guild_id s) (guild_id t)) as [Heq|Hne]; [rejected|].
  all: exfalso;
    destruct Hrej as [[? ?]|[?|[?|[Hn|[Hn|(s' & t' & Hs' & Ht' & Hid)]]]]];
    try congruence;
    try (apply approved_lookup_None in Hn; congruence).
Qed.

Lemma transfer_validation_sends_nothing_witness :
  ∃ r w', transfer 1 7 "Beta" "Alpha" 0.5%float "cash"
            (scenario_world (always Status200)) = Some (r, w') ∧
          early_rejection r ∧ w' = scenario_world (always Status200) ∧
          requests w' = requests (scenario_world (always Status200)) ∧
          ledger w' = ledger (scenario_world (always Status200)).
Proof.
  apply (transfer_validation_sends_nothing 1 7 "Beta" "Alpha" 0.5%float "cash"
           (scenario_world (always Status200))).
  right; left. vm_compute. reflexivity.
Defined.

(** ** The ledger calls of the saga *)

Lemma user_has_sufficient_balance_inv depth g u amt wallet w b w' :
  user_has_sufficient_balance depth g u amt wallet w = Some (b, w') →
  client_frame w w' ∧ ledger w' = ledger w.
Proof.
  unfold user_has_sufficient_balance, bind, ret. intros H.
  destruct (get_user_balance depth g u w) as [[bal w1]|] eqn:Hget; [|discriminate].
  apply get_user_balance_inv in Hget as (Hf & Hl & _).
  destruct bal as [bal|]; [|by invert_some].
  destruct (String.eqb _ _); [by invert_some|].
  destruct (String.eqb _ _); by invert_some.
Qed.

Lemma balance_of_same l l' g u :
  l' !! (g, u) = l !! (g, u) → balance_of l' g u = balance_of l g u.
Proof. unfold balance_of. by intros ->. Qed.

(** A call on one wallet leaves the other accounts and the other wallet
    alone; it has written nothing or has added the change to the wallet;
    and a snapshot comes back only with the write. *)
Lemma modify_wallet_inv depth g u wallet d reason w res w' :
  modify_wallet depth g u wallet d reason w = Some (res, w') →
  client_frame w w' ∧
  (∀ key, key ≠ (g, u) → ledger w' !! key = ledger w !! key) ∧
  other_wallet_of wallet (balance_of (ledger w') g u)
    = other_wallet_of wallet (balance_of (ledger w) g u) ∧
  (ledger w' = ledger w ∨
   wallet_of wallet (balance_of (ledger w') g u)
     = py_add (wallet_of wallet (balance_of (ledger w) g u)) d) ∧
  (∀ snap, res = Some snap →
     wallet_of wallet snap
       = py_add (wallet_of wallet (balance_of (ledger w) g u)) d ∧
     other_wallet_of wallet snap
       = other_wallet_of wallet (balance_of (ledger w) g u) ∧
     ledger w' = <[(g, u) := snap]> (ledger w)).
Proof.
  unfold modify_wallet. intros H.
  apply modify_user_balance_inv in H as (Hf & Hl & Hres).
  set (cur := balance_of (ledger w) g u) in *.
  set (new := mkBalance _ _ _) in *.
  assert (Hw : wallet_of wallet new = py_add (wallet_of wallet cur) d ∧
               other_wallet_of wallet new = other_wallet_of wallet cur).
  { subst new. unfold on_wallet, wallet_of, other_wallet_of.
    by destruct (String.eqb wallet "cash"). }
  destruct Hw as [Hw Ho].
  split; [done|]. split; [|split; [|split]].
  - intros key Hkey. destruct Hl as [->|(_ & _ & ->)]; [done|].
    by rewrite lookup_insert_ne.
  - destruct Hl as [->|(_ & _ & ->)]; [done|].
    unfold balance_of at 1. by rewrite lookup_insert_eq.
  - destruct Hl as [Hl|(_ & _ & ->)]; [by left | right].
    unfold balance_of at 1. by rewrite lookup_insert_eq.
  - intros snap Hsnap. by destruct (Hres snap Hsnap) as (-> & -> & _).
Qed.

(** [confirm] when the credit has failed after a debit that went through:
    the rollback call is made and, whatever it answers, the reply is the
    rolled-back message. *)
Lemma confirm_credit_failed_run depth v uid w w1 sr w2 w3 rb w4 :
  uid = view_user_id v →
  unb_loaded w = true →
  user_has_sufficient_balance depth (guild_id (source_economy v)) uid
    (amount v) (wallet_type v) w = Some (true, w1) →
  debit depth v uid w1 = Some (Some sr, w2) →
  credit depth v uid w2 = Some (None, w3) →
  rollback depth v uid w3 = Some (rb, w4) →
  confirm depth v uid w = Some (RolledBack, w4).
Proof.
  intros -> Hunb Hhas Hdebit Hcredit Hrollback.
  unfold confirm. rewrite Z.eqb_refl, Hunb. simpl.
  unfold bind. rewrite Hhas. simpl. rewrite Hdebit, Hcredit, Hrollback. done.
Qed.

Lemma wallet_of_balance_insert l g u snap wallet :
  wallet_of wallet (balance_of (<[(g, u) := snap]> l) g u) = wallet_of wallet snap ∧
  other_wallet_of wallet (balance_of (<[(g, u) := snap]> l) g u)
    = other_wallet_of wallet snap.
Proof. unfold balance_of. by rewrite lookup_insert_eq. Qed.

(** C1, as the code has it. When the debit has gone through, the credit
    (on another guild, as in every view that [transfer] builds) has failed
    and the compensating call on the source account (same wallet,
    [+amount]) has succeeded, [confirm] answers that the transfer was rolled
    back, logs no transfer, and both wallets of the source account are back
    at their values of before the transfer, provided that subtracting and
    adding [amount] is exact in floating point at this balance. *)
Theorem confirm_rolls_back_failed_credit depth v uid w w1 sr w2 w3 rb w4 :
  uid = view_user_id v →
  unb_loaded w = true →
  guild_id (source_economy v) ≠ guild_id (target_economy v) →
  user_has_sufficient_balance depth (guild_id (source_economy v)) uid
    (amount v) (wallet_type v) w = Some (true, w1) →
  debit depth v uid w1 = Some (Some sr, w2) →
  credit depth v uid w2 = Some (None, w3) →
  modify_wallet depth (guild_id (source_economy v)) uid (wallet_type v) (amount v)
    "Transfer rollback" w3 = Some (Some rb, w4) →
  let src := guild_id (source_economy v) in
  let pre := balance_of (ledger w) src uid in
  py_add (py_add (wallet_of (wallet_type v) pre) (py_neg (amount v))) (amount v)
    = wallet_of (wallet_type v) pre →
  confirm depth v uid w = Some (RolledBack, w4) ∧
  transfers w4 = transfers w ∧
  wallet_of (wallet_type v) (balance_of (ledger w4) src uid)
    = wallet_of (wallet_type v) pre ∧
  other_wallet_of (wallet_type v) (balance_of (ledger w4) src uid)
    = other_wallet_of (wallet_type v) pre.
Proof.
  intros Huid Hunb Hne Hhas Hdebit Hcredit Hrollback src pre Hexact.
  split; [by eapply confirm_credit_failed_run|].
  apply user_has_sufficient_balance_inv in Hhas as (Hf1 & Hl1).
  apply modify_wallet_inv in Hdebit as (Hf2 & _ & _ & _ & Hdebit).
  destruct (Hdebit sr eq_refl) as (Hsr & Hsr' & Hl2).
  apply modify_wallet_inv in Hcredit as (Hf3 & Hl3 & _).
  apply modify_wallet_inv in Hrollback as (Hf4 & _ & _ & _ & Hrollback).
  destruct (Hrollback rb eq_refl) as (Hw & Ho & Hl4).
  assert (Hsrc : balance_of (ledger w3) src uid = sr).
  { rewrite (balance_of_same (ledger w2) (ledger w3)).
    - rewrite Hl2. unfold balance_of. by rewrite lookup_insert_eq.
    - apply Hl3. intros [= Heq]. by apply Hne. }
  split.
  - destruct Hf1 as (_&_&_&_&_&_&H1&_), Hf2 as (_&_&_&_&_&_&H2&_),
      Hf3 as (_&_&_&_&_&_&H3&_), Hf4 as (_&_&_&_&_&_&H4&_). congruence.
  - rewrite Hl4. fold src.
    destruct (wallet_of_balance_insert (ledger w3) src uid rb (wallet_type v))
      as [-> ->].
    fold src in Hw, Ho. rewrite Hw, Ho, Hsrc, Hsr, Hsr', Hl1. fold src pre. done.
Qed.

(** Scenario B: the credit read (request 3) is answered 404. *)
Lemma confirm_rolls_back_failed_credit_witness :
  let w := scenario_world (failing_at [3%nat]) in
  ∃ w4, confirm 1 scenario_view 7 w = Some (RolledBack, w4) ∧
        transfers w4 = [] ∧
        cash (balance_of (ledger w4) 1 7) = 250%float ∧
        bank (balance_of (ledger w4) 1 7) = 40%float.
Proof.
  intros w.
  edestruct (confirm_rolls_back_failed_credit 1 scenario_view 7 w)
    as (Hrun & Hlog & Hcash & Hbank).
  - reflexivity.
  - reflexivity.
  - done.
  - vm_compute. reflexivity.
  - vm_compute. reflexivity.
  - vm_compute. reflexivity.
  - vm_compute. reflexivity.
  - vm_compute. reflexivity.
  - eexists. split; [exact Hrun|]. split; [exact Hlog|].
    split; [exact Hcash | exact Hbank].
Defined.

(** Why the theorem asks for exact arithmetic: with 250.1 in cash and a
    transfer of 100.7 the compensating call succeeds, and the balance comes
    back one rounding step below where it was. *)
Example rollback_rounding :
  let w := set_ledger {[ (1, 7) := mkBalance 250.1%float 40%float 290.1%float ]}
             (scenario_world (failing_at [3%nat])) in
  let v := mkView 7 alpha beta 100.7%float 50.35%float "cash" in
  ∃ w4, confirm 1 v 7 w = Some (RolledBack, w4) ∧
        cash (balance_of (ledger w4) 1 7) = 250.09999999999997%float ∧
        py_lt (cash (balance_of (ledger w4) 1 7)) (cash (balance_of (ledger w) 1 7))
          = true.
Proof.
  intros w v. eexists.
  repeat (split; [vm_compute; reflexivity|]). vm_compute. reflexivity.
Qed.

(** C1 fails on the code: the debit goes through, the credit fails and so
    does the compensating call (requests 3 and 4 are answered 404). The
    answer is still the rolled-back message, and the source account holds
    150 where it held 250. *)
Lemma failed_rollback_leaves_source_debited :
  let w := scenario_world (failing_at [3%nat; 4%nat]) in
  ∃ w1 sr w2 w3 w4,
    user_has_sufficient_balance 1 1 7 100%float "cash" w = Some (true, w1) ∧
    debit 1 scenario_view 7 w1 = Some (Some sr, w2) ∧
    credit 1 scenario_view 7 w2 = Some (None, w3) ∧
    confirm 1 scenario_view 7 w = Some (RolledBack, w4) ∧
    cash (balance_of (ledger w) 1 7) = 250%float ∧
    cash (balance_of (ledger w4) 1 7) = 150%float ∧
    cash (balance_of (ledger w4) 1 7) ≠ cash (balance_of (ledger w) 1 7).
Proof.
  intros w. do 5 eexists.
  split; [vm_compute; reflexivity|].
  split; [vm_compute; reflexivity|].
  split; [vm_compute; reflexivity|].
  split; [vm_compute; reflexivity|].
  split; [vm_compute; reflexivity|].
  split; [vm_compute; reflexivity|].
  intros H. apply (f_equal (fun x => py_lt x 250%float)) in H.
  vm_compute in H. discriminate.
Qed.

(** C3 fails on the code: [confirm] does not look at the result of the
    compensating call. With the credit and the compensation both failed
    (requests 3 and 4 answered 404) it answers exactly as it does when the
    compensation succeeded (request 3 alone answered 404): the rolled-back
    message. The source account stays debited (150 for 250), nothing was
    credited, and no request follows the failed compensating read. *)
Theorem failed_compensation_is_reported_as_rollback :
  let failed := scenario_world (failing_at [3%nat; 4%nat]) in
  let compensated := scenario_world (failing_at [3%nat]) in
  ∃ w1 sr w2 w3 w4 w4',
    user_has_sufficient_balance 1 1 7 100%float "cash" failed = Some (true, w1) ∧
    debit 1 scenario_view 7 w1 = Some (Some sr, w2) ∧
    credit 1 scenario_view 7 w2 = Some (None, w3) ∧
    rollback 1 scenario_view 7 w3 = Some (None, w4) ∧
    confirm 1 scenario_view 7 failed = Some (RolledBack, w4) ∧
    confirm 1 scenario_view 7 compensated = Some (RolledBack, w4') ∧
    cash (balance_of (ledger failed) 1 7) = 250%float ∧
    cash (balance_of (ledger w4) 1 7) = 150%float ∧
    cash (balance_of (ledger w4') 1 7) = 250%float ∧
    balance_of (ledger w4) 2 7 = zero_balance ∧
    length (requests w4) = 5%nat ∧
    transfers w4 = [] ∧ audit_log w4 = [].
Proof.
  intros failed compensated. do 6 eexists.
  repeat (split; [vm_compute; reflexivity|]). vm_compute. reflexivity.
Qed.

(** ** A transfer that completes *)

Lemma transfer_confirmation_inv depth uid target_server source_server x wallet w v w1 :
  transfer depth uid target_server source_server x wallet w = Some (Confirmation v, w1) →
  view_user_id v = uid ∧ amount v = x ∧ wallet_type v = lower wallet ∧
  convert x (rate_usd (source_economy v)) (rate_usd (target_economy v))
    = Some (target_amount v) ∧
  guild_id (source_economy v) ≠ guild_id (target_economy v).
Proof.
  unfold transfer. intros H.
  destruct (negb (db_loaded w) || negb (unb_loaded w))%bool; [by invert_some|].
  destruct (negb _); [by invert_some|].
  destruct (py_lt x _ || py_gt x _)%bool; [by invert_some|].
  destruct (find_economies _ _ _) as [[s|] [t|]]; try by invert_some.
  destruct (Z.eqb_spec (guild_id s) (guild_id t)) as [|Hne]; [by invert_some|].
  unfold bind, ret in H.
  destruct (user_has_sufficient_balance _ _ _ _ _ _) as [[[|] w2]|];
    simpl in H; [|by invert_some|discriminate].
  destruct (convert x (rate_usd s) (rate_usd t)) as [tgt|] eqn:Hconv;
    [|by invert_some].
  injection H as <- <-. simpl. done.
Qed.

Lemma convert_Some x rS rT y :
  convert x rS rT = Some y → y = PrimFloat.mul (PrimFloat.div x rS) rT.
Proof.
  unfold convert, py_truediv, py_mul.
  destruct (PrimFloat.eqb rS 0); intros H; by invert_some.
Qed.

Lemma py_truediv_Some x y q : py_truediv x y = Some q → q = PrimFloat.div x y.
Proof. unfold py_truediv. destruct (PrimFloat.eqb y 0); intros H; by invert_some. Qed.

(** The steps behind a [TransferComplete]. *)
Lemma confirm_complete_inv depth v uid w w' :
  confirm depth v uid w = Some (TransferComplete, w') →
  ∃ w1 sr w2 tr w3 rate,
    user_has_sufficient_balance depth (guild_id (source_economy v)) uid
      (amount v) (wallet_type v) w = Some (true, w1) ∧
    debit depth v uid w1 = Some (Some sr, w2) ∧
    credit depth v uid w2 = Some (Some tr, w3) ∧
    py_truediv (rate_usd (target_economy v)) (rate_usd (source_economy v))
      = Some rate ∧
    w' = snd (log_action "transfer" uid (Some (guild_id (source_economy v)))
                (TransferredTo (amount v) (guild_name (target_economy v)))
                (snd (log_transfer uid (guild_id (source_economy v))
                        (guild_id (target_economy v)) (amount v) (target_amount v)
                        (currency_name (source_economy v))
                        (currency_name (target_economy v))
                        (wallet_type v) rate w3))).
Proof.
  unfold confirm. intros H.
  destruct (negb (uid =? view_user_id v)); [by invert_some|].
  destruct (negb (unb_loaded w)); [by invert_some|].
  unfold bind, ret in H.
  destruct (user_has_sufficient_balance _ _ _ _ _ _) as [[[|] w1]|] eqn:Hhas;
    simpl in H; [|by invert_some|discriminate].
  destruct (debit depth v uid w1) as [[[sr|] w2]|] eqn:Hdebit;
    [|by invert_some|discriminate].
  destruct (credit depth v uid w2) as [[[tr|] w3]|] eqn:Hcredit; [| |discriminate].
  2:{ destruct (rollback depth v uid w3) as [[? ?]|]; by invert_some. }
  destruct (py_truediv _ _) as [rate|] eqn:Hrate; [|by invert_some].
  destruct (negb (db_loaded w3)); [by invert_some|].
  unfold db_call in H. simpl in H. injection H as <-.
  by exists w1, sr, w2, tr, w3, rate.
Qed.

(** C6. For a transfer of [x] that [transfer] has accepted and [confirm] has
    completed, with [rS] and [rT] the rates of the source and of the target
    economy: the amount credited on the target wallet is [x / rS * rT], the
    source wallet goes down by [x], and the one row appended to the transfer
    log carries both amounts and the rate [rT / rS]. *)
Theorem transfer_credits_converted_amount depth depth' uid target_server source_server
    x wallet w v w1 w' w2 :
  transfer depth uid target_server source_server x wallet w = Some (Confirmation v, w1) →
  confirm depth' v uid w' = Some (TransferComplete, w2) →
  let rS := rate_usd (source_economy v) in
  let rT := rate_usd (target_economy v) in
  let src := guild_id (source_economy v) in
  let tgt := guild_id (target_economy v) in
  amount v = x ∧
  target_amount v = PrimFloat.mul (PrimFloat.div x rS) rT ∧
  wallet_of (wallet_type v) (balance_of (ledger w2) tgt uid)
    = py_add (wallet_of (wallet_type v) (balance_of (ledger w') tgt uid))
             (PrimFloat.mul (PrimFloat.div x rS) rT) ∧
  wallet_of (wallet_type v) (balance_of (ledger w2) src uid)
    = py_add (wallet_of (wallet_type v) (balance_of (ledger w') src uid)) (py_neg x) ∧
  transfers w2 = transfers w' ++
    [mkTransferRecord uid src tgt x (PrimFloat.mul (PrimFloat.div x rS) rT)
       (currency_name (source_economy v)) (currency_name (target_economy v))
       (wallet_type v) (now w') (PrimFloat.div rT rS)].
Proof.
  intros Htransfer Hconfirm rS rT src tgt.
  apply transfer_confirmation_inv in Htransfer as (_ & Hx & _ & Hconv & Hne).
  apply convert_Some in Hconv. fold rS rT in Hconv.
  apply confirm_complete_inv in Hconfirm
    as (w3 & sr & w4 & tr & w5 & rate & Hhas & Hdebit & Hcredit & Hrate & ->).
  apply py_truediv_Some in Hrate. fold rS rT in Hrate.
  apply user_has_sufficient_balance_inv in Hhas as (Hf1 & Hl1).
  apply modify_wallet_inv in Hdebit as (Hf2 & _ & _ & _ & Hdebit).
  destruct (Hdebit sr eq_refl) as (Hsr & _ & Hl2).
  apply modify_wallet_inv in Hcredit as (Hf3 & _ & _ & _ & Hcredit).
  destruct (Hcredit tr eq_refl) as (Htr & _ & Hl3).
  fold src in Hsr, Hl2. fold tgt in Htr, Hl3.
  split; [done|]. split; [done|]. simpl.
  assert (Hpair : (src, uid) ≠ (tgt, uid)) by (intros [=]; done).
  split; [|split].
  - rewrite Hl3.
    destruct (wallet_of_balance_insert (ledger w4) tgt uid tr (wallet_type v))
      as [-> _].
    rewrite Htr, Hl2. unfold balance_of at 1.
    rewrite lookup_insert_ne by done. fold (balance_of (ledger w3) tgt uid).
    by rewrite Hl1, Hconv.
  - rewrite Hl3. unfold balance_of at 1.
    rewrite lookup_insert_ne by done. fold (balance_of (ledger w4) src uid).
    rewrite Hl2.
    destruct (wallet_of_balance_insert (ledger w3) src uid sr (wallet_type v))
      as [-> _].
    by rewrite Hsr, Hl1, Hx.
  - destruct Hf1 as (_&_&_&_&Hn1&_&Ht1&_), Hf2 as (_&_&_&_&Hn2&_&Ht2&_),
      Hf3 as (_&_&_&_&Hn3&_&Ht3&_).
    rewrite Ht3, Ht2, Ht1, Hn3, Hn2, Hn1, Hx, Hconv, Hrate. done.
Qed.

(** Scenario A: 100 in cash from Alpha (rate 10) to Beta (rate 5). *)
Lemma transfer_credits_converted_amount_witness :
  let w := scenario_world (always Status200) in
  ∃ v w1 w2,
    transfer 1 7 "Beta" "Alpha" 100%float "cash" w = Some (Confirmation v, w1) ∧
    confirm 1 v 7 w1 = Some (TransferComplete, w2) ∧
    target_amount v = 50%float ∧
    cash (balance_of (ledger w2) 2 7) = 50%float ∧
    cash (balance_of (ledger w2) 1 7) = 150%float ∧
    transfers w2 =
      [mkTransferRecord 7 1 2 100%float 50%float "alphas" "betas" "cash" 1000
                        0.5%float].
Proof.
  intros w.
  assert (Ht : transfer 1 7 "Beta" "Alpha" 100%float "cash" w
               = Some (Confirmation scenario_view,
                       snd (default (SameServer, w)
                              (transfer 1 7 "Beta" "Alpha" 100%float "cash" w))))
    by (vm_compute; reflexivity).
  set (w1 := snd _) in Ht.
  assert (Hc : confirm 1 scenario_view 7 w1
               = Some (TransferComplete,
                       snd (default (DebitFailed, w1) (confirm 1 scenario_view 7 w1))))
    by (vm_compute; reflexivity).
  set (w2 := snd _) in Hc.
  destruct (transfer_credits_converted_amount _ _ _ _ _ _ _ _ _ _ _ _ Ht Hc)
    as (_ & Htgt & Hcredit & Hdebit & Hlog).
  exists scenario_view, w1, w2.
  split; [exact Ht|]. split; [exact Hc|].
  split; [rewrite Htgt; vm_compute; reflexivity|].
  split; [etrans; [exact Hcredit|]; vm_compute; reflexivity|].
  split; [etrans; [exact Hdebit|]; vm_compute; reflexivity|].
  etrans; [exact Hlog|]. vm_compute. reflexivity.
Defined.

(** ** The registry: [update_economy_status] *)

Lemma find_update_where gid g f l :
  (∀ e, guild_id (f e) = guild_id e) →
  find (fun e => guild_id e =? g) (update_where gid f l)
  = if decide (g = gid) then f <$> find (fun e => guild_id e =? g) l
    else find (fun e => guild_id e =? g) l.
Proof.
  intros Hid. unfold update_where.
  induction l as [|x l IH]; simpl; [by case_decide|].
  destruct (Z.eqb_spec (guild_id x) gid) as [Hx|Hx].
  - rewrite Hid. destruct (Z.eqb_spec (guild_id x) g) as [Hg|Hg].
    + case_decide; [done | congruence].
    + rewrite IH. case_decide; [congruence | done].
  - destruct (Z.eqb_spec (guild_id x) g) as [Hg|Hg].
    + case_decide; [congruence | done].
    + exact IH.
Qed.

Lemma updated_row_guild_id st by_user t e :
  guild_id (updated_row st by_user t e) = guild_id e.
Proof.
  unfold updated_row. by destruct (String.eqb st "approved"), (truthy_id by_user).
Qed.

Lemma updated_row_status st by_user t e : status (updated_row st by_user t e) = st.
Proof.
  unfold updated_row. by destruct (String.eqb st "approved"), (truthy_id by_user).
Qed.

Lemma update_economy_status_run gid st by_user w :
  update_economy_status gid st by_user w
  = (true, set_economies
             (update_where gid (updated_row st by_user (now w)) (economies w)) w).
Proof.
  unfold update_economy_status, updated_row.
  by destruct (String.eqb st "approved"), (truthy_id by_user).
Qed.

(** C7, as the code has it. [update_economy_status] does not look at the
    current status: it always succeeds, the row with the given id takes the
    new status whatever status it had (approver and approval time are set
    only for "approved" with an approver), the other rows stay, and a second
    call with the same status succeeds as well and leaves that status. *)
Theorem update_economy_status_from_any_status gid st by_user w :
  let r := update_economy_status gid st by_user w in
  let r2 := update_economy_status gid st by_user (snd r) in
  fst r = true ∧
  get_economy gid (snd r) = updated_row st by_user (now w) <$> get_economy gid w ∧
  (∀ g, g ≠ gid → get_economy g (snd r) = get_economy g w) ∧
  fst r2 = true ∧
  status <$> get_economy gid (snd r2) = (fun _ => st) <$> get_economy gid w.
Proof.
  intros r r2. subst r r2. rewrite !update_economy_status_run. simpl.
  unfold get_economy. simpl.
  split; [done|]. split; [|split; [|split; [done|]]].
  - rewrite find_update_where by apply updated_row_guild_id.
    by rewrite decide_True.
  - intros g Hg.
    rewrite find_update_where by apply updated_row_guild_id.
    by rewrite decide_False.
  - rewrite !find_update_where by apply updated_row_guild_id.
    rewrite !decide_True by done.
    destruct (find _ (economies w)) as [e|]; simpl; [|done].
    by rewrite updated_row_status.
Qed.

(** C7 fails on the code: Alpha is approved, and the reject button of its
    application message, pressed by officer 42, succeeds and turns it to
    rejected; so does a direct call of [update_economy_status]. *)
Lemma approved_economy_gets_rejected :
  let w := scenario_world (always Status200) in
  status <$> get_economy 1 w = Some "approved"%string ∧
  fst (update_economy_status 1 "rejected" None w) = true ∧
  status <$> get_economy 1 (snd (update_economy_status 1 "rejected" None w))
    = Some "rejected"%string ∧
  fst (reject_button 1 42 w) = Decided ∧
  status <$> get_economy 1 (snd (reject_button 1 42 w)) = Some "rejected"%string.
Proof.
  intros w. repeat (split; [vm_compute; reflexivity|]). vm_compute. reflexivity.
Qed.

(** ** The exchange calculation *)

Lemma py_lt_zero_not_eq (x : pyfloat) :
  py_lt x 0%float = true → PrimFloat.eqb x 0%float = false.
Proof.
  unfold py_lt. rewrite FloatAxioms.ltb_spec, FloatAxioms.eqb_spec. unfold SpecFloat.SFltb, SpecFloat.SFeqb.
  by destruct (SpecFloat.SFcompare _ _) as [[| |]|].
Qed.

(** What [transfer] answers to a request that has passed its checks. *)
Lemma transfer_reaches_conversion depth uid target_server source_server x wallet
    w src tgt w1 :
  db_loaded w = true → unb_loaded w = true →
  lower wallet = "cash"%string ∨ lower wallet = "bank"%string →
  py_lt x (min_transfer_amount (config w)) = false →
  py_gt x (max_transfer_amount (config w)) = false →
  lookup_by_name source_server (get_all_economies (Some "approved"%string) w)
    = Some src →
  lookup_by_name target_server (get_all_economies (Some "approved"%string) w)
    = Some tgt →
  guild_id src ≠ guild_id tgt →
  user_has_sufficient_balance depth (guild_id src) uid x (lower wallet) w
    = Some (true, w1) →
  transfer depth uid target_server source_server x wallet w
  = Some (match convert x (rate_usd src) (rate_usd tgt) with
          | Some y => Confirmation (mkView uid src tgt x y (lower wallet))
          | None => RaisedZeroDivisionError
          end, w1).
Proof.
  intros Hdb Hunb Hw Hmin Hmax Hs Ht Hne Hhas. unfold transfer.
  rewrite Hdb, Hunb. cbn [negb orb].
  assert (Hwallet : negb (String.eqb (lower wallet) "cash"
                          || String.eqb (lower wallet) "bank") = false).
  { destruct Hw as [-> | ->]; reflexivity. }
  rewrite Hwallet, Hmin, Hmax. cbn [orb].
  rewrite find_economies_lookup, Hs, Ht.
  destruct (Z.eqb_spec (guild_id src) (guild_id tgt)) as [|_]; [done|].
  unfold bind, ret. rewrite Hhas. cbn [negb].
  by destruct (convert x (rate_usd src) (rate_usd tgt)).
Qed.

(** C8, as the code has it. The conversion checks nothing. A request that
    has passed the checks of [transfer] (services loaded, wallet, amount
    within the bounds, two approved economies of different ids, sufficient
    balance) is offered for confirmation with
    [amount / rateSource * rateTarget] as the amount to receive for every
    source rate that does not compare equal to zero, the negative ones
    included; a zero source rate ends the command in Python's
    [ZeroDivisionError]. *)
Theorem convert_checks_no_rate depth uid target_server source_server x wallet
    w src tgt w1 :
  db_loaded w = true → unb_loaded w = true →
  lower wallet = "cash"%string ∨ lower wallet = "bank"%string →
  py_lt x (min_transfer_amount (config w)) = false →
  py_gt x (max_transfer_amount (config w)) = false →
  lookup_by_name source_server (get_all_economies (Some "approved"%string) w)
    = Some src →
  lookup_by_name target_server (get_all_economies (Some "approved"%string) w)
    = Some tgt →
  guild_id src ≠ guild_id tgt →
  user_has_sufficient_balance depth (guild_id src) uid x (lower wallet) w
    = Some (true, w1) →
  transfer depth uid target_server source_server x wallet w
  = Some (if PrimFloat.eqb (rate_usd src) 0%float then RaisedZeroDivisionError
          else Confirmation
                 (mkView uid src tgt x
                    (PrimFloat.mul (PrimFloat.div x (rate_usd src)) (rate_usd tgt))
                    (lower wallet)),
          w1) ∧
  (py_lt (rate_usd src) 0%float = true →
   PrimFloat.eqb (rate_usd src) 0%float = false).
Proof.
  intros Hdb Hunb Hw Hmin Hmax Hs Ht Hne Hhas.
  split; [|apply py_lt_zero_not_eq].
  rewrite (transfer_reaches_conversion _ _ _ _ _ _ _ src tgt w1) by done.
  unfold convert, py_truediv, py_mul.
  by destruct (PrimFloat.eqb (rate_usd src) 0).
Qed.

(** Alpha at a rate of -10: 100 in cash are offered for -50 at Beta. *)
Lemma convert_checks_no_rate_witness :
  let negative := mkEconomy 1 "Alpha" "alphas" "A$" (-10)%float "approved"
                            None 100 5 (Some 6) (Some 42) in
  let w := set_economies [negative; beta] (scenario_world (always Status200)) in
  ∃ w1, transfer 0 7 "Beta" "Alpha" 100%float "cash" w
        = Some (Confirmation (mkView 7 negative beta 100 (-50) "cash"), w1).
Proof.
  intros negative w.
  assert (Hhas : user_has_sufficient_balance 0 1 7 100%float "cash" w
                 = Some (true,
                         snd (default (false, w)
                                (user_has_sufficient_balance 0 1 7 100%float "cash" w))))
    by (vm_compute; reflexivity).
  set (w1 := snd _) in Hhas.
  destruct (convert_checks_no_rate 0 7 "Beta" "Alpha" 100%float "cash" w
              negative beta w1) as [Hrun _];
    try (vm_compute; reflexivity); [by left | by vm_compute |].
  exists w1. rewrite Hrun. vm_compute. reflexivity.
Defined.

(** C8 fails on the code: a source rate of -10 is not refused, 100 converts
    to -50 at a target rate of 5. *)
Lemma negative_rate_is_converted :
  py_lt (-10)%float 0%float = true ∧
  convert 100%float (-10)%float 5%float = Some (-50)%float.
Proof. split; vm_compute; reflexivity. Qed.

(** ** Who may decide on an application *)

Lemma is_officer_or_owner_iff uid w :
  is_officer_or_owner uid w = true ↔
  uid = owner_user_id (config w) ∨ (db_loaded w = true ∧ is_officer uid w = true).
Proof.
  unfold is_officer_or_owner.
  destruct (Z.eqb_spec uid (owner_user_id (config w))) as [Ho|Ho]; [tauto|].
  destruct (db_loaded w); [tauto|].
  split; [done | intros [?|[? _]]; done].
Qed.

(** The check of [kick_economy] lets in the owner and the officers. *)
Lemma kick_economy_authorized_iff uid name reason w :
  fst (kick_economy uid name reason w) ≠ KickNotAuthorized ↔
  uid = owner_user_id (config w) ∨ (db_loaded w = true ∧ is_officer uid w = true).
Proof.
  rewrite <- is_officer_or_owner_iff. unfold kick_economy.
  destruct (is_officer_or_owner uid w); simpl; [|split; done].
  split; [done|]. intros _.
  destruct (db_loaded w); simpl; [|done].
  destruct (find _ _); simpl; done.
Qed.

(** The check of the approval buttons lets in the officers only. *)
Lemma approval_buttons_authorized_iff g uid w :
  db_loaded w = true →
  (fst (approve_button g uid w) ≠ NotAuthorized ↔ is_officer uid w = true) ∧
  (fst (reject_button g uid w) ≠ NotAuthorized ↔ is_officer uid w = true).
Proof.
  intros Hdb. unfold approve_button, reject_button. rewrite Hdb. simpl.
  rewrite !update_economy_status_run.
  destruct (is_officer uid w); simpl; split; split; done.
Qed.

(** C9 fails on the code for approval and rejection: the owner (user 99),
    who is let in by [is_officer_or_owner] and may remove an economy, is
    turned away by both buttons of a pending application, which ask
    [is_officer] alone; the application stays as it was. *)
Theorem owner_is_refused_by_approval_buttons :
  let w := scenario_world (always Status200) in
  owner_user_id (config w) = 99 ∧
  is_officer 99 w = false ∧
  is_officer_or_owner 99 w = true ∧
  fst (kick_economy 99 "Alpha" "left the market" w) = KickRemoved ∧
  status <$> get_economy 3 w = Some "pending"%string ∧
  approve_button 3 99 w = (NotAuthorized, w) ∧
  reject_button 3 99 w = (NotAuthorized, w) ∧
  fst (approve_button 3 42 w) = Decided.
Proof.
  intros w. repeat (split; [vm_compute; reflexivity|]). vm_compute. reflexivity.
Qed.

(** * Further properties of the code *)

(** ** The client: pacing and reach *)

Lemma api_sleeps_app ds1 ds2 : api_sleeps (ds1 ++ ds2) = (api_sleeps ds1 + api_sleeps ds2)%nat.
Proof. unfold api_sleeps. by rewrite filter_app, length_app. Qed.

Lemma api_sleeps_none ds :
  (∀ d, d ∈ ds → is_api_delay d = false) → api_sleeps ds = 0%nat.
Proof.
  unfold api_sleeps. induction ds as [|d ds IH]; intros H; [done|].
  rewrite filter_cons_False.
  - apply IH. intros d' Hd'. apply H. by right.
  - rewrite (H d); [done | by left].
Qed.

Lemma client_effect_refl uid guilds w : client_effect uid guilds w w.
Proof.
  split; [apply client_frame_refl|]. split; [|done].
  exists [], []. rewrite !app_nil_r. repeat split; constructor.
Qed.

Lemma client_effect_trans uid guilds w1 w2 w3 :
  client_effect uid guilds w1 w2 → client_effect uid guilds w2 w3 →
  client_effect uid guilds w1 w3.
Proof.
  intros (Hf1 & (rs1 & ds1 & Hr1 & Hs1 & Hn1 & Hd1 & Hu1) & Hl1)
         (Hf2 & (rs2 & ds2 & Hr2 & Hs2 & Hn2 & Hd2 & Hu2) & Hl2).
  split; [by eapply client_frame_trans|]. split.
  - exists (rs1 ++ rs2), (ds1 ++ ds2).
    rewrite Hr2, Hr1, Hs2, Hs1, !app_assoc, api_sleeps_app, length_app.
    repeat split; try done; [lia| |by apply Forall_app].
    apply Forall_app. split; [done|].
    destruct Hf1 as (Hc & _). by rewrite Hc in Hd2.
  - intros g u Hout. rewrite Hl2, Hl1; done.
Qed.

Lemma client_effect_mono uid guilds guilds' w w' :
  guilds ⊆ guilds' → client_effect uid guilds w w' → client_effect uid guilds' w w'.
Proof.
  intros Hsub (Hf & (rs & ds & Hr & Hs & Hn & Hd & Hu) & Hl).
  split; [done|]. split.
  - exists rs, ds. repeat split; try done.
    eapply Forall_impl; [exact Hu|]. intros r [? ?]. split; [done|]. by apply Hsub.
  - intros g u [Hu'|Hg]; apply Hl; [by left|]. right. intros Hin. by apply Hg, Hsub.
Qed.

(** The accounts a request does not name are not written. *)
Lemma remote_apply_others m g u j l g' u' :
  u' ≠ u ∨ g' ∉ [g] →
  snd (remote_apply (mkRequest m g u j) l) !! (g', u') = l !! (g', u').
Proof.
  intros Hout. unfold remote_apply. simpl.
  destruct m, j; simpl; try done.
  rewrite lookup_insert_ne; [done|]. intros [= <- <-].
  destruct Hout as [?|Hg]; [done|]. apply Hg. set_solver.
Qed.

Lemma make_request_effect depth m g u j : ∀ w res w',
  _make_request depth m g u j w = Some (res, w') →
  client_effect u [g] w w'.
Proof.
  assert (Hone : ∀ w w2 l tail,
            requests w2 = requests w ++ [mkRequest m g u j] →
            slept w2 = slept w ++ ApiDelay (api_delay (config w)) :: tail →
            (∀ d, d ∈ tail → is_api_delay d = false) →
            client_frame w w2 →
            (∀ g' u', u' ≠ u ∨ g' ∉ [g] → l !! (g', u') = ledger w !! (g', u')) →
            ledger w2 = l →
            client_effect u [g] w w2).
  { intros w w2 l tail Hr Hsl Htail Hf Hl Hlw. split; [done|]. split.
    - exists [mkRequest m g u j], (ApiDelay (api_delay (config w)) :: tail).
      split; [done|]. split; [done|]. split; [|split].
      + change (ApiDelay (api_delay (config w)) :: tail)
          with ([ApiDelay (api_delay (config w))] ++ tail).
        by rewrite api_sleeps_app, (api_sleeps_none tail).
      + constructor; [by intros s [= ->]|]. apply Forall_forall.
        intros d Hd s ->. by apply Htail in Hd.
      + constructor; [|done]. split; [done|]. set_solver.
    - by rewrite Hlw. }
  induction depth as [|depth IH]; intros w res w' H; simpl in H.
  all: destruct (session w) eqn:Hs; simpl in H;
    [|invert_some; apply client_effect_refl].
  all: destruct (replies w (length (requests w))) as [| | |h| | | |] eqn:Hr;
    try (invert_some; apply (Hone w _ (ledger w) []); try done; set_solver).
  all: try (destruct (remote_apply _ _) as [data l] eqn:Ha; invert_some;
            apply (Hone w _ l []); try done; [set_solver|];
            intros g' u' Hout;
            rewrite <- (remote_apply_others m g u j (ledger w) g' u' Hout);
            by rewrite Ha).
  all: try (invert_some;
            apply (Hone w _ (snd (remote_apply (mkRequest m g u j) (ledger w))) []);
            try done; [set_solver|];
            intros g' u' Hout; by apply remote_apply_others).
  all: destruct (retry_after h) as [n|];
    [|invert_some; apply (Hone w _ (ledger w) []); try done; set_solver].
  - invert_some. apply (Hone w _ (ledger w) [RetryDelay n]); try done.
    + simpl. by rewrite <- app_assoc.
    + intros d Hd. apply list_elem_of_singleton in Hd. by subst.
  - apply IH in H. eapply client_effect_trans; [|exact H].
    apply (Hone w _ (ledger w) [RetryDelay n]); try done.
    + simpl. by rewrite <- app_assoc.
    + intros d Hd. apply list_elem_of_singleton in Hd. by subst.
Qed.

Lemma get_user_balance_effect depth g u w res w' :
  get_user_balance depth g u w = Some (res, w') → client_effect u [g] w w'.
Proof.
  unfold get_user_balance, bind, ret. intros H.
  destruct (_make_request depth GET g u None w) as [[data w1]|] eqn:Hreq; [|discriminate].
  apply make_request_effect in Hreq. destruct data as [[d|]|]; by invert_some.
Qed.

Lemma set_user_balance_effect depth g u c b reason w res w' :
  set_user_balance depth g u c b reason w = Some (res, w') → client_effect u [g] w w'.
Proof.
  unfold set_user_balance, bind, ret. intros H.
  destruct (_make_request depth PATCH g u _ w) as [[data w1]|] eqn:Hreq; [|discriminate].
  apply make_request_effect in Hreq. destruct data as [[d|]|]; by invert_some.
Qed.

Lemma modify_user_balance_effect depth g u dc db reason w res w' :
  modify_user_balance depth g u dc db reason w = Some (res, w') →
  client_effect u [g] w w'.
Proof.
  rewrite modify_user_balance_unfold. intros H.
  destruct (get_user_balance depth g u w) as [[[cur|] w1]|] eqn:Hget;
    [| |discriminate]; apply get_user_balance_effect in Hget; [|by invert_some].
  destruct (_ || _)%bool; [by invert_some|].
  apply set_user_balance_effect in H. by eapply client_effect_trans.
Qed.

Lemma user_has_sufficient_balance_effect depth g u amt wallet w b w' :
  user_has_sufficient_balance depth g u amt wallet w = Some (b, w') →
  client_effect u [g] w w'.
Proof.
  unfold user_has_sufficient_balance, bind, ret. intros H.
  destruct (get_user_balance depth g u w) as [[bal w1]|] eqn:Hget; [|discriminate].
  apply get_user_balance_effect in Hget.
  destruct bal as [bal|]; [|by invert_some].
  destruct (String.eqb _ _); [by invert_some|].
  destruct (String.eqb _ _); by invert_some.
Qed.

(** ** Reads do not write *)

Lemma read_only_trans w1 w2 w3 : read_only w1 w2 → read_only w2 w3 → read_only w1 w3.
Proof.
  intros (Hl1 & rs1 & Hr1 & Hg1) (Hl2 & rs2 & Hr2 & Hg2). split; [congruence|].
  exists (rs1 ++ rs2). rewrite Hr2, Hr1, app_assoc. split; [done|].
  by apply Forall_app.
Qed.

Lemma get_user_balance_read_only depth g u w res w' :
  get_user_balance depth g u w = Some (res, w') → read_only w w'.
Proof.
  intros H. apply get_user_balance_inv in H as (_ & Hl & (k & Hk) & _).
  split; [done|]. exists (replicate k (mkRequest GET g u None)).
  split; [done|]. by apply Forall_replicate.
Qed.

Lemma user_has_sufficient_balance_read_only depth g u amt wallet w b w' :
  user_has_sufficient_balance depth g u amt wallet w = Some (b, w') → read_only w w'.
Proof.
  unfold user_has_sufficient_balance, bind, ret. intros H.
  destruct (get_user_balance depth g u w) as [[bal w1]|] eqn:Hget; [|discriminate].
  apply get_user_balance_read_only in Hget.
  destruct bal as [bal|]; [|by invert_some].
  destruct (String.eqb _ _); [by invert_some|].
  destruct (String.eqb _ _); by invert_some.
Qed.

(** ** Every call returns *)

Lemma user_has_sufficient_balance_total depth g u amt wallet w :
  ∃ b w', user_has_sufficient_balance depth g u amt wallet w = Some (b, w').
Proof.
  unfold user_has_sufficient_balance, bind, ret.
  destruct (get_user_balance_total depth g u w) as ([bal|] & w1 & ->); [|eauto].
  destruct (String.eqb _ _); [eauto|]. destruct (String.eqb _ _); eauto.
Qed.

Lemma transfer_total depth uid target_server source_server x wallet w :
  ∃ r w', transfer depth uid target_server source_server x wallet w = Some (r, w').
Proof.
  unfold transfer.
  destruct (negb (db_loaded w) || negb (unb_loaded w))%bool; [eauto|].
  destruct (negb _); [eauto|].
  destruct (py_lt x _ || py_gt x _)%bool; [eauto|].
  destruct (find_economies _ _ _) as [[s|] [t|]]; eauto.
  destruct (guild_id s =? guild_id t); [eauto|].
  unfold bind, ret.
  destruct (user_has_sufficient_balance_total depth (guild_id s) uid x (lower wallet) w)
    as ([|] & w1 & ->); simpl; [|eauto].
  destruct (convert x (rate_usd s) (rate_usd t)); eauto.
Qed.

Lemma confirm_total depth v uid w :
  ∃ r w', confirm depth v uid w = Some (r, w').
Proof.
  unfold confirm.
  destruct (negb (uid =? view_user_id v)); [eauto|].
  destruct (negb (unb_loaded w)); [eauto|].
  unfold bind, ret, debit, credit, rollback, modify_wallet.
  destruct (user_has_sufficient_balance_total depth (guild_id (source_economy v)) uid
              (amount v) (wallet_type v) w) as ([|] & w1 & ->); simpl; [|eauto].
  destruct (modify_user_balance_total depth (guild_id (source_economy v)) uid
              (fst (on_wallet (wallet_type v) (py_neg (amount v))))
              (snd (on_wallet (wallet_type v) (py_neg (amount v))))
              ("Transfer to " ++ guild_name (target_economy v)) w1)
    as ([sr|] & w2 & ->); [|eauto].
  destruct (modify_user_balance_total depth (guild_id (target_economy v)) uid
              (fst (on_wallet (wallet_type v) (target_amount v)))
              (snd (on_wallet (wallet_type v) (target_amount v)))
              ("Transfer from " ++ guild_name (source_economy v)) w2)
    as ([tr|] & w3 & ->).
  - destruct (py_truediv _ _); [|eauto].
    destruct (negb (db_loaded w3)); [eauto|]. unfold db_call. simpl. eauto.
  - destruct (modify_user_balance_total depth (guild_id (source_economy v)) uid
                (fst (on_wallet (wallet_type v) (amount v)))
                (snd (on_wallet (wallet_type v) (amount v)))
                "Transfer rollback" w3) as (rb & w4 & ->). eauto.
Qed.

(** ** Extras on [cogs/unbelievaboat.py] *)



(** One 429 that asks for 7 seconds, then a 200: two requests, and the
    sleeps 1, 7, 1. *)
Example make_request_trace_scenario :
  let w := scenario_world
             (fun n => match n with
                       | O => Status429 (RetryAfterInt 7)
                       | _ => Status200
                       end) in
  ∃ w', _make_request 5 GET 1 7 None w
          = Some (Some (Account (mkBalance 250 40 290)), w') ∧
        requests w' = [mkRequest GET 1 7 None; mkRequest GET 1 7 None] ∧
        slept w' = [ApiDelay 1; RetryDelay 7; ApiDelay 1].
Proof.
  intros w. eexists. repeat (split; [vm_compute; reflexivity|]).
  vm_compute. reflexivity.
Qed.

(** X2. The balance check only reads: it sends GETs and leaves ledger and
    bot state as they were. When it answers [True], the read went through and
    the wallet named (case-insensitively ['cash'] or ['bank']) holds at least
    the amount. *)
Theorem sufficient_balance_reads_and_is_sound depth g u amt wallet w b w' :
  user_has_sufficient_balance depth g u amt wallet w = Some (b, w') →
  read_only w w' ∧ client_frame w w' ∧
  (b = true →
   (lower wallet = "cash"%string ∧
    py_ge (cash (balance_of (ledger w) g u)) amt = true) ∨
   (lower wallet = "bank"%string ∧
    py_ge (bank (balance_of (ledger w) g u)) amt = true)).
Proof.
  intros H.
  split; [by eapply user_has_sufficient_balance_read_only|].
  split; [by eapply user_has_sufficient_balance_inv|].
  intros ->. unfold user_has_sufficient_balance, bind, ret in H.
  destruct (get_user_balance depth g u w) as [[bal w1]|] eqn:Hget; [|discriminate].
  apply get_user_balance_inv in Hget as (_ & _ & _ & Hbal).
  destruct bal as [bal|]; [|by invert_some].
  rewrite <- (Hbal bal eq_refl).
  destruct (String.eqb_spec (lower wallet) "cash");
    [left; simpl in H; injection H as Hge _; by split|].
  destruct (String.eqb_spec (lower wallet) "bank");
    [right; simpl in H; injection H as Hge _; by split|].
  simpl in H. by invert_some.
Qed.

Lemma sufficient_balance_reads_and_is_sound_witness :
  let w := scenario_world (always Status200) in
  ∃ w',
    user_has_sufficient_balance 1 1 7 100%float "CASH" w = Some (true, w') ∧
    read_only w w' ∧ client_frame w w' ∧
    (true = true →
     (lower "CASH" = "cash"%string ∧
      py_ge (cash (balance_of (ledger w) 1 7)) 100%float = true) ∨
     (lower "CASH" = "bank"%string ∧
      py_ge (bank (balance_of (ledger w) 1 7)) 100%float = true)).
Proof.
  intros w. eexists. split; [vm_compute; reflexivity|].
  apply (sufficient_balance_reads_and_is_sound 1 1 7 100%float "CASH" w true).
  vm_compute. reflexivity.
Defined.

(** X3. [modify_user_balance] drives no wallet below zero: it changes no
    account but the one named, and there it writes nothing or writes two
    wallets that are not negative. A snapshot that comes back is what the
    ledger then holds for the account. *)
Theorem modify_user_balance_never_negative depth g u dc db reason w res w' :
  modify_user_balance depth g u dc db reason w = Some (res, w') →
  (∀ key, key ≠ (g, u) → ledger w' !! key = ledger w !! key) ∧
  (ledger w' = ledger w ∨
   (py_lt (cash (balance_of (ledger w') g u)) 0%float = false ∧
    py_lt (bank (balance_of (ledger w') g u)) 0%float = false)) ∧
  (∀ snap, res = Some snap →
     balance_of (ledger w') g u = snap ∧
     py_lt (cash snap) 0%float = false ∧ py_lt (bank snap) 0%float = false).
Proof.
  intros H. apply modify_user_balance_inv in H as (_ & Hl & Hres).
  split; [|split].
  - intros key Hkey. destruct Hl as [->|(_ & _ & ->)]; [done|].
    by rewrite lookup_insert_ne.
  - destruct Hl as [Hl|(Hc & Hb & ->)]; [by left | right].
    unfold balance_of. by rewrite lookup_insert_eq.
  - intros snap Hsnap. destruct (Hres snap Hsnap) as (-> & -> & Hc & Hb).
    unfold balance_of. by rewrite lookup_insert_eq.
Qed.

Lemma modify_user_balance_never_negative_witness :
  let w := scenario_world (always Status200) in
  ∃ snap w',
    modify_user_balance 1 1 7 (Some (-250)%float) None "spend all" w
      = Some (Some snap, w') ∧
    balance_of (ledger w') 1 7 = snap ∧
    py_lt (cash snap) 0%float = false ∧ py_lt (bank snap) 0%float = false.
Proof.
  intros w. eexists _, _. split; [vm_compute; reflexivity|].
  refine (proj2 (proj2 (modify_user_balance_never_negative 1 1 7
                          (Some (-250)%float) None "spend all" w (Some _) _ _))
            _ eq_refl).
  vm_compute. reflexivity.
Defined.

(** X30. No snapshot does not mean no write. When the PATCH of
    [modify_user_balance] is answered by a 200 whose body the client cannot
    use (not JSON, or empty), the call answers [None] as for a failure, and
    the account holds the new balance. *)
Theorem unreadable_write_is_applied depth g u dc db reason w cur w1 :
  get_user_balance depth g u w = Some (Some cur, w1) →
  let new_cash :=
    match dc with Some d => py_add (cash cur) d | None => cash cur end in
  let new_bank :=
    match db with Some d => py_add (bank cur) d | None => bank cur end in
  (py_lt new_cash 0%float || py_lt new_bank 0%float)%bool = false →
  answer depth w1 = Some Status200Unreadable ∨
  answer depth w1 = Some Status200Empty →
  ∃ w2,
    modify_user_balance depth g u dc db reason w = Some (None, w2) ∧
    balance_of (ledger w2) g u
      = mkBalance new_cash new_bank (py_add new_cash new_bank).
Proof.
  intros Hget new_cash new_bank Hpos Ha.
  pose proof (get_user_balance_session _ _ _ _ _ _ Hget) as Hs.
  pose proof (get_user_balance_inv _ _ _ _ _ _ Hget) as (Hf & _).
  assert (Hs1 : session w1 = true).
  { destruct Hf as (_&_&_&Hs1&_). congruence. }
  rewrite modify_user_balance_unfold, Hget.
  change (add_change (cash cur) dc) with new_cash.
  change (add_change (bank cur) db) with new_bank. rewrite Hpos.
  destruct (set_user_balance_answer depth g u new_cash new_bank reason w1 Hs1)
    as (w2 & k & Hset & _ & Hl).
  exists w2. rewrite Hset. unfold balance_of. rewrite Hl.
  destruct Ha as [-> | ->]; by rewrite lookup_insert_eq.
Qed.

(** The debit of Scenario A with an unreadable answer to its PATCH. *)
Lemma unreadable_write_is_applied_witness :
  let w := scenario_world
             (fun n => match n with
                       | 1%nat => Status200Unreadable
                       | _ => Status200
                       end) in
  ∃ w2,
    modify_user_balance 0 1 7 (Some (-100)%float) None "Transfer to Beta" w
      = Some (None, w2) ∧
    balance_of (ledger w2) 1 7 = mkBalance 150 40 190.
Proof.
  intros w.
  assert (Hget : get_user_balance 0 1 7 w
                 = Some (Some (mkBalance 250 40 290),
                         snd (default (None, w) (get_user_balance 0 1 7 w))))
    by (vm_compute; reflexivity).
  set (w1 := snd _) in Hget.
  destruct (unreadable_write_is_applied 0 1 7 (Some (-100)%float) None
              "Transfer to Beta" w _ w1 Hget) as (w2 & Hrun & Hl).
  - vm_compute. reflexivity.
  - left. vm_compute. reflexivity.
  - exists w2. split; [exact Hrun|]. rewrite Hl. vm_compute. reflexivity.
Defined.

(** ** Extras on [cogs/database.py] *)

Lemma insert_latest_perm {A} (key : A → Z) e l : insert_latest key e l ≡ₚ e :: l.
Proof.
  induction l as [|x l IH]; simpl; [done|].
  destruct (key x <=? key e); [done|]. rewrite IH. apply Permutation_swap.
Qed.

Lemma insert_latest_sorted {A} (key : A → Z) e l :
  StronglySorted (latest_first key) l →
  StronglySorted (latest_first key) (insert_latest key e l).
Proof.
  unfold latest_first. induction l as [|x l IH]; simpl; intros Hs.
  - by repeat constructor.
  - apply StronglySorted_inv in Hs as [Hs Hx].
    destruct (Z.leb_spec (key x) (key e)) as [Hle|Hlt].
    + constructor; [by constructor|]. constructor; [done|].
      eapply Forall_impl; [exact Hx|]. simpl. intros y Hy. lia.
    + constructor; [by apply IH|].
      rewrite insert_latest_perm. constructor; [lia | done].
Qed.

Lemma foldr_insert_latest {A} (key : A → Z) l :
  StronglySorted (latest_first key) (foldr (insert_latest key) [] l) ∧
  foldr (insert_latest key) [] l ≡ₚ l.
Proof.
  induction l as [|x l [IHs IHp]]; simpl; [split; [constructor | done]|].
  split; [by apply insert_latest_sorted|]. by rewrite insert_latest_perm, IHp.
Qed.

Lemma order_by_applied_at_desc_insert l :
  order_by_applied_at_desc l = foldr (insert_latest applied_at) [] l.
Proof.
  unfold order_by_applied_at_desc. induction l as [|x l IH]; simpl; [done|].
  rewrite IH. generalize (foldr (insert_latest applied_at) [] l). intros k.
  induction k as [|y k IHk]; simpl; [done|]. by rewrite IHk.
Qed.

Lemma order_by_timestamp_desc_insert l :
  order_by_timestamp_desc l = foldr (insert_latest tr_timestamp) [] l.
Proof.
  unfold order_by_timestamp_desc. induction l as [|x l IH]; simpl; [done|].
  rewrite IH. generalize (foldr (insert_latest tr_timestamp) [] l). intros k.
  induction k as [|y k IHk]; simpl; [done|]. by rewrite IHk.
Qed.

Lemma existsb_find_guild gid l :
  existsb (fun e => guild_id e =? gid) l
  = bool_decide (is_Some (find (fun e => guild_id e =? gid) l)).
Proof.
  induction l as [|x l IH]; simpl; [done|].
  by destruct (guild_id x =? gid).
Qed.

Lemma find_guild_app gid l1 l2 :
  find (fun e => guild_id e =? gid) (l1 ++ l2)
  = match find (fun e => guild_id e =? gid) l1 with
    | Some e => Some e
    | None => find (fun e => guild_id e =? gid) l2
    end.
Proof.
  induction l1 as [|x l1 IH]; simpl; [done|]. by destruct (guild_id x =? gid).
Qed.

Lemma find_guild_filter_ne gid g l :
  find (fun e => guild_id e =? g) (filter (fun e => guild_id e ≠ gid) l)
  = if decide (g = gid) then None else find (fun e => guild_id e =? g) l.
Proof.
  induction l as [|x l IH]; simpl; [by case_decide|].
  destruct (decide (guild_id x = gid)) as [Hx|Hx].
  - rewrite filter_cons_False by (by intros ?). rewrite IH.
    destruct (Z.eqb_spec (guild_id x) g) as [Hg|Hg]; [|done].
    rewrite !decide_True by congruence. done.
  - rewrite filter_cons_True by done. simpl.
    destruct (Z.eqb_spec (guild_id x) g) as [Hg|Hg]; [|exact IH].
    case_decide; [congruence | done].
Qed.

(** X4. [add_economy] refuses an id that is already in the table, and a
    rate that is not a number (SQLite stores a NaN as NULL, which the
    column does not allow), and leaves the table as it was; a free id with
    a rate that is a number is registered as a pending application with no
    approver, which [get_economy] returns, and the look-up of every other id
    is unchanged. *)
Theorem add_economy_registers_pending gid name cname csymbol rate by_user note w :
  match get_economy gid w with
  | Some _ => add_economy gid name cname csymbol rate by_user note w = (false, w)
  | None =>
      if PrimFloat.is_nan rate
      then add_economy gid name cname csymbol rate by_user note w = (false, w)
      else
        let r := add_economy gid name cname csymbol rate by_user note w in
        fst r = true ∧
        get_economy gid (snd r)
          = Some (mkEconomy gid name cname csymbol rate "pending" note by_user
                            (now w) None None) ∧
        ∀ g, g ≠ gid → get_economy g (snd r) = get_economy g w
  end.
Proof.
  unfold get_economy, add_economy. rewrite existsb_find_guild.
  destruct (find _ (economies w)) as [e|] eqn:Hfind.
  - rewrite bool_decide_eq_true_2 by eauto. done.
  - rewrite bool_decide_eq_false_2 by (intros [? ?]; done).
    destruct (PrimFloat.is_nan rate); [done|]. simpl.
    split; [done|]. split.
    + rewrite find_guild_app, Hfind. simpl. by rewrite Z.eqb_refl.
    + intros g Hg. rewrite find_guild_app. simpl.
      destruct (Z.eqb_spec gid g); [congruence|].
      by destruct (find (fun e => guild_id e =? g) (economies w)).
Qed.

Lemma remove_economy_forgets_the_id_aux gid w :
  get_economy gid (snd (remove_economy gid w)) = None ∧
  (∀ g, g ≠ gid → get_economy g (snd (remove_economy gid w)) = get_economy g w).
Proof.
  unfold get_economy, remove_economy. simpl. split.
  - rewrite find_guild_filter_ne. by rewrite decide_True.
  - intros g Hg. rewrite find_guild_filter_ne. by rewrite decide_False.
Qed.

(** X7. [remove_economy] always answers [True]; afterwards the id is not in
    the table and every other id is looked up as before; removing an id that
    is not there changes nothing and is not reported. *)
Theorem remove_economy_forgets_the_id gid w :
  let r := remove_economy gid w in
  fst r = true ∧
  get_economy gid (snd r) = None ∧
  (∀ g, g ≠ gid → get_economy g (snd r) = get_economy g w) ∧
  (get_economy gid w = None → economies (snd r) = economies w).
Proof.
  unfold get_economy, remove_economy. simpl.
  split; [done|]. split; [|split].
  - rewrite find_guild_filter_ne. by rewrite decide_True.
  - intros g Hg. rewrite find_guild_filter_ne. by rewrite decide_False.
  - induction (economies w) as [|x l IH]; simpl; [done|].
    destruct (Z.eqb_spec (guild_id x) gid) as [Hx|Hx]; [done|].
    intros Hnone. rewrite filter_cons_True by done. f_equal. by apply IH.
Qed.

Lemma update_where_ids gid f l :
  (∀ e, guild_id (f e) = guild_id e) →
  guild_id <$> update_where gid f l = guild_id <$> l.
Proof.
  intros Hid. unfold update_where. induction l as [|x l IH]; csimpl; [done|].
  rewrite IH. by destruct (guild_id x =? gid); rewrite ?Hid.
Qed.

Lemma registry_step_unique w op : unique_ids w → unique_ids (registry_step w op).
Proof.
  unfold unique_ids. intros Hu. destruct op as [gid name cn cs rate by_user note|gid st by_user|gid]; simpl.
  - unfold add_economy.
    destruct (existsb _ _) eqn:Hex; simpl; [done|].
    destruct (PrimFloat.is_nan rate); simpl; [done|].
    rewrite fmap_app. simpl. apply NoDup_app. split; [done|].
    split; [|apply NoDup_singleton].
    intros g Hg Hg'. apply list_elem_of_singleton in Hg'. subst g.
    apply list_elem_of_fmap in Hg as (e & He & Hin).
    assert (existsb (fun e => guild_id e =? gid) (economies w) = true) as Ht.
    { apply existsb_exists. exists e. split; [by apply list_elem_of_In|].
      apply Z.eqb_eq. done. }
    congruence.
  - rewrite update_economy_status_run. simpl.
    rewrite update_where_ids; [done|]. intros e. apply updated_row_guild_id.
  - eapply sublist_NoDup; [exact Hu|].
    apply fmap_sublist, sublist_filter.
Qed.

(** X5. The writes of the registry keep the guild id a key: from a table
    without two rows of one id, any sequence of [add_economy],
    [update_economy_status] and [remove_economy] leads to such a table. *)
Theorem registry_keeps_ids_unique ops : ∀ w,
  unique_ids w → unique_ids (foldl registry_step w ops).
Proof.
  induction ops as [|op ops IH]; intros w Hu; simpl; [done|].
  apply IH. by apply registry_step_unique.
Qed.

Lemma registry_keeps_ids_unique_witness :
  unique_ids
    (foldl registry_step (scenario_world (always Status200))
       [Register 3 "Gamma again" "g" "G" 3%float 7 None;
        Register 4 "Delta" "deltas" "D$" 4%float 7 None;
        SetStatus 4 "approved" (Some 42);
        Remove 1]).
Proof.
  apply registry_keeps_ids_unique. unfold unique_ids.
  apply (bool_decide_unpack _). vm_compute. exact I.
Defined.

(** X6. In a table whose ids are unique [get_economy] answers with a row
    exactly when that row is in the table under the id asked for. *)
Theorem get_economy_finds_the_row gid e w :
  unique_ids w →
  (get_economy gid w = Some e ↔ e ∈ economies w ∧ guild_id e = gid).
Proof.
  unfold unique_ids, get_economy. induction (economies w) as [|x l IH]; simpl.
  - intros _. split; [done | intros [H _]; by apply not_elem_of_nil in H].
  - rewrite NoDup_cons. intros [Hx Hl].
    destruct (Z.eqb_spec (guild_id x) gid) as [Hid|Hid].
    + split.
      * intros [= ->]. split; [by left | done].
      * intros [Hin He]. apply elem_of_cons in Hin as [->|Hin]; [done|].
        exfalso. apply Hx. apply list_elem_of_fmap. exists e. split; [congruence | done].
    + rewrite (IH Hl). split.
      * intros [Hin He]. split; [by right | done].
      * intros [Hin He]. apply elem_of_cons in Hin as [->|Hin]; [done|]. done.
Qed.

Lemma get_economy_finds_the_row_witness :
  get_economy 2 (scenario_world (always Status200)) = Some beta ↔
  beta ∈ economies (scenario_world (always Status200)) ∧ guild_id beta = 2.
Proof.
  apply get_economy_finds_the_row. unfold unique_ids.
  apply (bool_decide_unpack _). vm_compute. exact I.
Defined.

Lemma get_all_economies_sorted st w :
  StronglySorted (latest_first applied_at) (get_all_economies st w).
Proof.
  unfold get_all_economies.
  destruct st as [s|]; [destruct (String.eqb s "")|];
    rewrite order_by_applied_at_desc_insert; apply foldr_insert_latest.
Qed.

(** X8. [get_all_economies] answers with the rows of the status asked for
    (all rows for no status or the empty string), each one once, the latest
    application first. *)
Theorem get_all_economies_latest_first st w :
  StronglySorted (latest_first applied_at) (get_all_economies st w) ∧
  get_all_economies st w ≡ₚ selected_economies st w.
Proof.
  unfold get_all_economies, selected_economies.
  destruct st as [s|]; [destruct (String.eqb s "")|];
    rewrite order_by_applied_at_desc_insert; apply foldr_insert_latest.
Qed.

Lemma existsb_officer_filter uid other l :
  existsb (fun o => officer_id o =? other) (filter (fun o => officer_id o ≠ uid) l)
  = if decide (other = uid) then false
    else existsb (fun o => officer_id o =? other) l.
Proof.
  induction l as [|o l IH]; simpl; [by case_decide|].
  destruct (decide (officer_id o = uid)) as [Ho|Ho].
  - rewrite filter_cons_False by (by intros ?). rewrite IH.
    case_decide; [done|]. by destruct (Z.eqb_spec (officer_id o) other); [congruence|].
  - rewrite filter_cons_True by done. simpl. rewrite IH.
    case_decide; [|done]. subst other.
    by destruct (Z.eqb_spec (officer_id o) uid).
Qed.

Lemma is_officer_after_add uid by_user w :
  sqlite_integer uid = true → sqlite_integer by_user = true →
  is_officer uid (snd (add_officer uid by_user w)) = true.
Proof.
  intros Hu Hb. unfold is_officer, add_officer. rewrite Hu, Hb. simpl.
  destruct (existsb _ (approved_officers w)) eqn:Hex; simpl; [done|].
  rewrite existsb_app. simpl. by rewrite Z.eqb_refl, orb_true_r.
Qed.

Lemma is_officer_after_remove uid w :
  is_officer uid (snd (remove_officer uid w)) = false.
Proof.
  unfold is_officer, remove_officer.
  destruct (sqlite_integer uid) eqn:Hu; simpl; [|done].
  rewrite existsb_officer_filter. by rewrite decide_True.
Qed.

(** X9. Officers. An id that does not fit SQLite's 64-bit INTEGER (of the
    user, or of the one who adds) is refused by [add_officer], such a user
    id also by [remove_officer], and is no officer. With ids that fit,
    [add_officer] refuses a user who is an officer already and otherwise
    makes the user one; [remove_officer] answers [True] and the user is no
    officer afterwards. Neither changes whether anyone else is an officer. *)
Theorem officers_round_trip uid by_user w :
  (sqlite_integer uid = false →
   add_officer uid by_user w = (false, w) ∧ remove_officer uid w = (false, w) ∧
   is_officer uid w = false) ∧
  (sqlite_integer by_user = false → add_officer uid by_user w = (false, w)) ∧
  (sqlite_integer uid = true →
   (is_officer uid w = true → add_officer uid by_user w = (false, w)) ∧
   (is_officer uid w = false → sqlite_integer by_user = true →
    fst (add_officer uid by_user w) = true ∧
    is_officer uid (snd (add_officer uid by_user w)) = true) ∧
   fst (remove_officer uid w) = true ∧
   is_officer uid (snd (remove_officer uid w)) = false) ∧
  (∀ other, other ≠ uid →
   is_officer other (snd (add_officer uid by_user w)) = is_officer other w) ∧
  (∀ other, other ≠ uid →
   is_officer other (snd (remove_officer uid w)) = is_officer other w).
Proof.
  split; [|split; [|split; [|split]]].
  - intros Hu. unfold add_officer, remove_officer, is_officer. by rewrite Hu.
  - intros Hb. unfold add_officer. rewrite Hb. by rewrite andb_false_r.
  - intros Hu. split; [|split; [|split]].
    + unfold is_officer, add_officer. rewrite Hu. simpl. intros ->.
      by destruct (sqlite_integer by_user).
    + intros Hno Hb. split; [|by apply is_officer_after_add].
      unfold is_officer in Hno. unfold add_officer.
      rewrite Hu in Hno |- *. rewrite Hb. simpl in *. by rewrite Hno.
    + unfold remove_officer. by rewrite Hu.
    + apply is_officer_after_remove.
  - intros other Hne. unfold is_officer, add_officer.
    destruct (sqlite_integer uid && sqlite_integer by_user); simpl; [|done].
    destruct (existsb (fun o => officer_id o =? uid) (approved_officers w));
      simpl; [done|].
    rewrite existsb_app. simpl.
    destruct (Z.eqb_spec uid other); [congruence|]. by rewrite !orb_false_r.
  - intros other Hne. unfold is_officer, remove_officer.
    destruct (sqlite_integer uid); simpl; [|done].
    rewrite existsb_officer_filter. by rewrite decide_False.
Qed.



(** X11. [cleanup_old_transfers] answers with the number of rows it has
    deleted. The rows kept are, in their order, the rows of the log that are
    not older than the cut-off, [days] days before now; registry, officers
    and ledger are not touched. When the date arithmetic overflows (more
    than 999999999 days, or a cut-off outside the years 1 to 9999) nothing
    is deleted and the answer is 0. *)
Theorem cleanup_old_transfers_deletes_the_old days w :
  let r := cleanup_old_transfers days w in
  0 ≤ fst r ∧
  fst r + Z.of_nat (length (transfers (snd r))) = Z.of_nat (length (transfers w)) ∧
  transfers (snd r) `sublist_of` transfers w ∧
  economies (snd r) = economies w ∧
  approved_officers (snd r) = approved_officers w ∧
  ledger (snd r) = ledger w ∧
  match cutoff_date (now w) days with
  | None => fst r = 0 ∧ snd r = w
  | Some cutoff =>
      cutoff = now w - days * microseconds_per_day ∧
      Z.abs days ≤ 999999999 ∧ datetime_min ≤ cutoff ≤ datetime_max ∧
      ∀ t, t ∈ transfers (snd r) ↔ t ∈ transfers w ∧ cutoff ≤ tr_timestamp t
  end.
Proof.
  intros r. subst r. unfold cleanup_old_transfers.
  destruct (cutoff_date (now w) days) as [cutoff|] eqn:Hcut; simpl.
  - pose proof (length_filter (fun t => ¬ tr_timestamp t < cutoff) (transfers w)).
    split; [lia|]. split; [lia|]. split; [apply sublist_filter|].
    split; [done|]. split; [done|]. split; [done|].
    unfold cutoff_date in Hcut.
    destruct (Z.ltb_spec 999999999 (Z.abs days)); [discriminate|].
    destruct (Z.ltb_spec (now w - days * microseconds_per_day) datetime_min);
      [discriminate|].
    destruct (Z.ltb_spec datetime_max (now w - days * microseconds_per_day));
      [discriminate|].
    simpl in Hcut. injection Hcut as <-.
    split; [done|]. split; [done|]. split; [lia|].
    intros t. rewrite list_elem_of_filter. split; intros [? ?]; split; (done || lia).
  - split; [done|]. split; [lia|]. by repeat split.
Qed.

(** ** Extras on [cogs/transfer.py] *)

(** Every run of [confirm] is one of the runs of [confirm_run]. *)
Lemma confirm_runs depth v uid w r w' :
  confirm depth v uid w = Some (r, w') → confirm_run depth v uid w r w'.
Proof.
  unfold confirm. intros H.
  destruct (Z.eqb_spec uid (view_user_id v)) as [Huid|Huid]; simpl in H;
    [|invert_some; by constructor].
  destruct (unb_loaded w) eqn:Hunb; simpl in H; [|invert_some; by constructor].
  unfold bind, ret in H.
  destruct (user_has_sufficient_balance _ _ _ _ _ _) as [[[|] w1]|] eqn:Hhas;
    simpl in H; [|invert_some; by econstructor|discriminate].
  destruct (debit depth v uid w1) as [[[sr|] w2]|] eqn:Hdebit;
    [|invert_some; by econstructor|discriminate].
  destruct (credit depth v uid w2) as [[[tr|] w3]|] eqn:Hcredit; [| |discriminate].
  2:{ destruct (rollback depth v uid w3) as [[rb w4]|] eqn:Hrb; [|discriminate].
      invert_some. by econstructor. }
  destruct (py_truediv _ _) as [rate|] eqn:Hrate;
    [|invert_some; eapply run_error; eauto].
  destruct (db_loaded w3) eqn:Hdb; simpl in H;
    [|invert_some; eapply run_error; eauto].
  unfold db_call in H. simpl in H. injection H as <- <-.
  by eapply run_complete.
Qed.

Lemma modify_wallet_effect depth g u wallet d reason w res w' :
  modify_wallet depth g u wallet d reason w = Some (res, w') →
  client_effect u [g] w w'.
Proof. apply modify_user_balance_effect. Qed.

(** A call on one wallet leaves the other wallet of every account as it
    was. *)
Lemma modify_wallet_other depth g u wallet d reason w res w' :
  modify_wallet depth g u wallet d reason w = Some (res, w') →
  ∀ g' u', other_wallet_of wallet (balance_of (ledger w') g' u')
           = other_wallet_of wallet (balance_of (ledger w) g' u').
Proof.
  intros H g' u'. apply modify_wallet_inv in H as (_ & Hothers & Ho & _).
  destruct (decide ((g', u') = (g, u))) as [[= -> ->]|Hne]; [done|].
  by rewrite (balance_of_same (ledger w) (ledger w')) by (by apply Hothers).
Qed.

Lemma logged_frame v uid rate w :
  ledger (logged v uid rate w) = ledger w ∧
  requests (logged v uid rate w) = requests w ∧
  slept (logged v uid rate w) = slept w ∧
  economies (logged v uid rate w) = economies w ∧
  approved_officers (logged v uid rate w) = approved_officers w ∧
  config (logged v uid rate w) = config w.
Proof. done. Qed.

(** The reach of a run, before the log calls. *)
Lemma confirm_run_effect depth v uid w r w' :
  confirm_run depth v uid w r w' →
  ∃ w3, client_effect uid [guild_id (source_economy v); guild_id (target_economy v)] w w3 ∧
        ledger w' = ledger w3 ∧ requests w' = requests w3 ∧ slept w' = slept w3 ∧
        economies w' = economies w3 ∧ approved_officers w' = approved_officers w3.
Proof.
  assert (Hs : ∀ wa wb,
            client_effect uid [guild_id (source_economy v)] wa wb →
            client_effect uid [guild_id (source_economy v); guild_id (target_economy v)]
              wa wb).
  { intros wa wb. apply client_effect_mono. intros x Hx.
    apply list_elem_of_singleton in Hx as ->. apply elem_of_cons. by left. }
  assert (Ht : ∀ wa wb,
            client_effect uid [guild_id (target_economy v)] wa wb →
            client_effect uid [guild_id (source_economy v); guild_id (target_economy v)]
              wa wb).
  { intros wa wb. apply client_effect_mono. intros x Hx.
    apply list_elem_of_singleton in Hx as ->.
    apply elem_of_cons. right. apply elem_of_cons. by left. }
  intros Hrun.
  destruct Hrun as [?|? ?|w1 ? ? Hhas|w1 w2 ? ? Hhas Hd|w1 sr w2 w3 rb w4 ? ? Hhas Hd Hc Hr
                      |w1 sr w2 tr w3 ? ? Hhas Hd Hc ?|w1 sr w2 tr w3 rate ? ? Hhas Hd Hc ? ?];
    try apply user_has_sufficient_balance_effect, Hs in Hhas;
    try apply modify_wallet_effect, Hs in Hd;
    try apply modify_wallet_effect, Ht in Hc;
    try apply modify_wallet_effect, Hs in Hr.
  - exists w. split; [apply client_effect_refl | done].
  - exists w. split; [apply client_effect_refl | done].
  - exists w1. done.
  - exists w2. split; [by eapply client_effect_trans | done].
  - exists w4. split; [|done].
    eapply client_effect_trans; [|exact Hr].
    eapply client_effect_trans; [|exact Hc]. by eapply client_effect_trans.
  - exists w3. split; [|done].
    eapply client_effect_trans; [|exact Hc]. by eapply client_effect_trans.
  - exists w3. split; [|done].
    eapply client_effect_trans; [|exact Hc]. by eapply client_effect_trans.
Qed.

Lemma client_effect_frame uid guilds w w' : client_effect uid guilds w w' → client_frame w w'.
Proof. by intros [? _]. Qed.

(** The bot's own state along a run: untouched but for the two log rows of
    a completed transfer. *)
Lemma confirm_run_frame depth v uid w r w' :
  confirm_run depth v uid w r w' →
  match r with
  | TransferComplete =>
      ∃ rate w3,
        py_truediv (rate_usd (target_economy v)) (rate_usd (source_economy v))
          = Some rate ∧
        client_frame w w3 ∧ w' = logged v uid rate w3
  | _ => client_frame w w'
  end.
Proof.
  intros Hrun.
  destruct Hrun as [?|? ?|w1 ? ? Hhas|w1 w2 ? ? Hhas Hd|w1 sr w2 w3 rb w4 ? ? Hhas Hd Hc Hr
                      |w1 sr w2 tr w3 ? ? Hhas Hd Hc ?|w1 sr w2 tr w3 rate ? ? Hhas Hd Hc ? ?];
    try apply user_has_sufficient_balance_effect, client_effect_frame in Hhas;
    try apply modify_wallet_effect, client_effect_frame in Hd;
    try apply modify_wallet_effect, client_effect_frame in Hc;
    try apply modify_wallet_effect, client_effect_frame in Hr;
    try apply client_frame_refl; try done.
  - by eapply client_frame_trans.
  - eapply client_frame_trans; [|exact Hr].
    eapply client_frame_trans; [|exact Hc]. by eapply client_frame_trans.
  - eapply client_frame_trans; [|exact Hc]. by eapply client_frame_trans.
  - exists rate, w3. split; [done|]. split; [|done].
    eapply client_frame_trans; [|exact Hc]. by eapply client_frame_trans.
Qed.

(** X12. Whatever its outcome, [confirm] sends requests only for the
    pressing user in the source and the target guild, sleeps [api_delay]
    once per request, leaves every other account of the ledger as it was,
    and does not touch the registry or the officers. *)
Theorem confirm_touches_only_the_two_accounts depth v uid w r w' :
  confirm depth v uid w = Some (r, w') →
  let guilds := [guild_id (source_economy v); guild_id (target_economy v)] in
  (∀ g u, u ≠ uid ∨ g ∉ guilds → ledger w' !! (g, u) = ledger w !! (g, u)) ∧
  (∃ rs ds,
     requests w' = requests w ++ rs ∧ slept w' = slept w ++ ds ∧
     api_sleeps ds = length rs ∧
     Forall (fun q => req_user q = uid ∧ req_guild q ∈ guilds) rs) ∧
  economies w' = economies w ∧ approved_officers w' = approved_officers w.
Proof.
  intros H guilds. apply confirm_runs, confirm_run_effect in H
    as (w3 & (Hf & (rs & ds & Hr & Hs & Hn & _ & Hu) & Hl) & Hl' & Hr' & Hs' & He' & Ho').
  destruct Hf as (_&_&_&_&_&He&_&Ho&_).
  split; [intros g u Hout; rewrite Hl'; by apply Hl|].
  split; [exists rs, ds; rewrite Hr', Hs'; done|].
  split; congruence.
Qed.

Lemma confirm_touches_only_the_two_accounts_witness :
  let w := scenario_world (always Status200) in
  ∃ w',
    confirm 1 scenario_view 7 w = Some (TransferComplete, w') ∧
    (∀ g u, u ≠ 7 ∨ g ∉ [1; 2] → ledger w' !! (g, u) = ledger w !! (g, u)) ∧
    (∃ rs ds,
       requests w' = requests w ++ rs ∧ slept w' = slept w ++ ds ∧
       api_sleeps ds = length rs ∧
       Forall (fun q => req_user q = 7 ∧ req_guild q ∈ [1; 2]) rs) ∧
    economies w' = economies w ∧ approved_officers w' = approved_officers w.
Proof.
  intros w. eexists. split; [vm_compute; reflexivity|].
  apply (confirm_touches_only_the_two_accounts 1 scenario_view 7 w TransferComplete).
  vm_compute. reflexivity.
Defined.



(** X14. The answers of [confirm] that come before the debit (another
    user's press, the missing cog, insufficient balance) leave the whole
    ledger as it was. The failed-debit answer leaves every account but the
    source account of the user as it was, and that account either as it
    was or with the wallet down by [amount]: a debit that the remote has
    applied and answered unreadably is reported as failed. *)
Theorem confirm_early_answers_move_nothing depth v uid w r w' :
  confirm depth v uid w = Some (r, w') →
  match r with
  | NotYourTransfer | RaisedAttributeError | InsufficientCancelled =>
      ledger w' = ledger w
  | DebitFailed =>
      (∀ key, key ≠ (guild_id (source_economy v), uid) →
              ledger w' !! key = ledger w !! key) ∧
      (ledger w' = ledger w ∨
       wallet_of (wallet_type v)
         (balance_of (ledger w') (guild_id (source_economy v)) uid)
       = py_add (wallet_of (wallet_type v)
                   (balance_of (ledger w) (guild_id (source_economy v)) uid))
                (py_neg (amount v)))
  | RolledBack | TransferComplete | TransferErrorOccurred => True
  end.
Proof.
  intros H. apply confirm_runs in H.
  destruct H as [?|? ?|w1 ? ? Hhas|w1 w2 ? ? Hhas Hd|w1 sr w2 w3 rb w4 ? ? Hhas Hd Hc Hr
                  |w1 sr w2 tr w3 ? ? Hhas Hd Hc ?|w1 sr w2 tr w3 rate ? ? Hhas Hd Hc ? ?];
    try done;
    apply user_has_sufficient_balance_inv in Hhas as (_ & Hl1); try done.
  apply modify_wallet_inv in Hd as (_ & Hothers & _ & Hl2 & _).
  rewrite Hl1 in Hothers, Hl2. split; [exact Hothers|].
  destruct Hl2 as [Hl2|Hl2]; [left; congruence | by right].
Qed.

(** The PATCH of the debit (request 2) is answered by a 200 that cannot be
    read: the answer is the failed debit, and the 100 are gone. *)
Lemma confirm_early_answers_move_nothing_witness :
  let w := scenario_world
             (fun n => match n with
                       | 2%nat => Status200Unreadable
                       | _ => Status200
                       end) in
  ∃ w', confirm 1 scenario_view 7 w = Some (DebitFailed, w') ∧
        cash (balance_of (ledger w) 1 7) = 250%float ∧
        cash (balance_of (ledger w') 1 7) = 150%float ∧
        ∀ key, key ≠ (1, 7) → ledger w' !! key = ledger w !! key.
Proof.
  intros w.
  assert (Hc : confirm 1 scenario_view 7 w
               = Some (DebitFailed,
                       snd (default (DebitFailed, w) (confirm 1 scenario_view 7 w))))
    by (vm_compute; reflexivity).
  set (w' := snd _) in Hc.
  destruct (confirm_early_answers_move_nothing 1 scenario_view 7 w DebitFailed w' Hc)
    as [Hothers _].
  exists w'. split; [exact Hc|]. split; [vm_compute; reflexivity|].
  split; [vm_compute; reflexivity | exact Hothers].
Defined.

(** X16. Whatever its outcome, [confirm] leaves the wallet it does not work
    on (the bank of a cash transfer, the cash of a bank transfer) unchanged
    in every account. *)
Theorem confirm_keeps_the_other_wallet depth v uid w r w' :
  confirm depth v uid w = Some (r, w') →
  ∀ g u, other_wallet_of (wallet_type v) (balance_of (ledger w') g u)
         = other_wallet_of (wallet_type v) (balance_of (ledger w) g u).
Proof.
  intros H g u. apply confirm_runs in H.
  destruct H as [?|? ?|w1 ? ? Hhas|w1 w2 ? ? Hhas Hd|w1 sr w2 w3 rb w4 ? ? Hhas Hd Hc Hr
                  |w1 sr w2 tr w3 ? ? Hhas Hd Hc ?|w1 sr w2 tr w3 rate ? ? Hhas Hd Hc ? ?];
    try done;
    apply user_has_sufficient_balance_inv in Hhas as (_ & Hl1);
    try pose proof (modify_wallet_other _ _ _ _ _ _ _ _ _ Hd g u) as Hod;
    try pose proof (modify_wallet_other _ _ _ _ _ _ _ _ _ Hc g u) as Hoc;
    try pose proof (modify_wallet_other _ _ _ _ _ _ _ _ _ Hr g u) as Hor;
    try (destruct (logged_frame v uid rate w3) as [-> _]);
    rewrite ?Hor, ?Hoc, ?Hod, Hl1; done.
Qed.

Lemma confirm_keeps_the_other_wallet_witness :
  let w := scenario_world (always Status200) in
  ∃ w', confirm 1 scenario_view 7 w = Some (TransferComplete, w') ∧
        ∀ g u, other_wallet_of "cash" (balance_of (ledger w') g u)
               = other_wallet_of "cash" (balance_of (ledger w) g u).
Proof.
  intros w. eexists. split; [vm_compute; reflexivity|].
  apply (confirm_keeps_the_other_wallet 1 scenario_view 7 w TransferComplete).
  vm_compute. reflexivity.
Defined.

Lemma lookup_by_name_Some name l e :
  lookup_by_name name l = Some e → e ∈ l ∧ lower (guild_name e) = lower name.
Proof.
  unfold lookup_by_name. intros H.
  assert (e ∈ filter (fun e => lower (guild_name e) = lower name) l) as Hin.
  { apply last_Some in H as (l' & ->). apply elem_of_app. right. by left. }
  apply list_elem_of_filter in Hin. tauto.
Qed.

Lemma approved_lookup_Some name w e :
  lookup_by_name name (get_all_economies (Some "approved"%string) w) = Some e →
  e ∈ economies w ∧ status e = "approved"%string ∧
  lower (guild_name e) = lower name.
Proof.
  intros H. apply lookup_by_name_Some in H as [Hin Hname].
  unfold get_all_economies in Hin. simpl in Hin.
  apply elem_of_order_by, list_elem_of_filter in Hin. tauto.
Qed.

(** What stands behind a confirmation of [transfer]. *)
Lemma transfer_accepts depth uid target_server source_server x wallet w v w1 :
  transfer depth uid target_server source_server x wallet w = Some (Confirmation v, w1) →
  db_loaded w = true ∧ unb_loaded w = true ∧
  (wallet_type v = "cash"%string ∨ wallet_type v = "bank"%string) ∧
  py_lt x (min_transfer_amount (config w)) = false ∧
  py_gt x (max_transfer_amount (config w)) = false ∧
  lookup_by_name source_server (get_all_economies (Some "approved"%string) w)
    = Some (source_economy v) ∧
  lookup_by_name target_server (get_all_economies (Some "approved"%string) w)
    = Some (target_economy v) ∧
  user_has_sufficient_balance depth (guild_id (source_economy v)) uid x
    (wallet_type v) w = Some (true, w1).
Proof.
  unfold transfer. intros H.
  destruct (db_loaded w), (unb_loaded w); simpl in H; try by invert_some.
  destruct (String.eqb_spec (lower wallet) "cash") as [Hc|Hc];
    destruct (String.eqb_spec (lower wallet) "bank") as [Hb|Hb];
    simpl in H; try by invert_some.
  all: destruct (py_lt x _) eqn:Hmin; simpl in H; [by invert_some|].
  all: destruct (py_gt x _) eqn:Hmax; simpl in H; [by invert_some|].
  all: rewrite find_economies_lookup in H.
  all: destruct (lookup_by_name source_server _) as [s|] eqn:Hs; [|by invert_some].
  all: destruct (lookup_by_name target_server _) as [t|] eqn:Ht; [|by invert_some].
  all: destruct (guild_id s =? guild_id t); [by invert_some|].
  all: unfold bind, ret in H.
  all: destruct (user_has_sufficient_balance _ _ _ _ _ _) as [[[|] w2]|] eqn:Hhas;
    simpl in H; [|by invert_some|discriminate].
  all: destruct (convert x (rate_usd s) (rate_usd t)); [|by invert_some].
  all: injection H as <- <-; simpl; repeat split; auto.
Qed.

(** X17. [transfer] offers a confirmation only for a request that passed
    every check: wallet cash or bank, amount not below the minimum and not
    above the maximum, both names those of approved economies of the table
    with different ids, and a balance read that showed at least the amount
    in the wallet. The view carries the user, the amount and the lower-cased
    wallet of the request. *)
Theorem transfer_confirms_only_valid_requests depth uid target_server source_server
    x wallet w v w1 :
  transfer depth uid target_server source_server x wallet w = Some (Confirmation v, w1) →
  view_user_id v = uid ∧ amount v = x ∧ wallet_type v = lower wallet ∧
  (wallet_type v = "cash"%string ∨ wallet_type v = "bank"%string) ∧
  py_lt x (min_transfer_amount (config w)) = false ∧
  py_gt x (max_transfer_amount (config w)) = false ∧
  (source_economy v ∈ economies w ∧ status (source_economy v) = "approved"%string ∧
   lower (guild_name (source_economy v)) = lower source_server) ∧
  (target_economy v ∈ economies w ∧ status (target_economy v) = "approved"%string ∧
   lower (guild_name (target_economy v)) = lower target_server) ∧
  guild_id (source_economy v) ≠ guild_id (target_economy v) ∧
  py_ge (wallet_of (wallet_type v)
           (balance_of (ledger w) (guild_id (source_economy v)) uid)) x = true.
Proof.
  intros H.
  pose proof (transfer_confirmation_inv _ _ _ _ _ _ _ _ _ H)
    as (Hu & Hx & Hw & _ & Hne).
  apply transfer_accepts in H as (_ & _ & Hcb & Hmin & Hmax & Hs & Ht & Hhas).
  apply approved_lookup_Some in Hs. apply approved_lookup_Some in Ht.
  repeat (split; [done|]).
  unfold user_has_sufficient_balance, bind, ret in Hhas.
  destruct (get_user_balance _ _ _ _) as [[bal w2]|] eqn:Hget; [|discriminate].
  apply get_user_balance_inv in Hget as (_ & _ & _ & Hbal).
  destruct bal as [bal|]; [|by invert_some].
  rewrite <- (Hbal bal eq_refl). unfold wallet_of.
  destruct Hcb as [Hc|Hc]; rewrite Hc in *; simpl in Hhas |- *; by invert_some.
Qed.

Lemma transfer_confirms_only_valid_requests_witness :
  let w := scenario_world (always Status200) in
  ∃ v w1,
    transfer 1 7 "BETA" "alpha" 100%float "Cash" w = Some (Confirmation v, w1) ∧
    view_user_id v = 7 ∧ amount v = 100%float ∧ wallet_type v = lower "Cash" ∧
    (wallet_type v = "cash"%string ∨ wallet_type v = "bank"%string) ∧
    py_lt 100%float (min_transfer_amount (config w)) = false ∧
    py_gt 100%float (max_transfer_amount (config w)) = false ∧
    (source_economy v ∈ economies w ∧ status (source_economy v) = "approved"%string ∧
     lower (guild_name (source_economy v)) = lower "alpha") ∧
    (target_economy v ∈ economies w ∧ status (target_economy v) = "approved"%string ∧
     lower (guild_name (target_economy v)) = lower "BETA") ∧
    guild_id (source_economy v) ≠ guild_id (target_economy v) ∧
    py_ge (wallet_of (wallet_type v)
             (balance_of (ledger w) (guild_id (source_economy v)) 7)) 100%float = true.
Proof.
  intros w. eexists _, _. split; [vm_compute; reflexivity|].
  eapply (transfer_confirms_only_valid_requests 1 7 "BETA" "alpha" 100%float "Cash" w).
  vm_compute. reflexivity.
Defined.

(** X18. [transfer] never writes: whatever it answers, the ledger and the
    bot's tables and configuration are as before, and the requests it has
    sent are GETs for the calling user. *)
Theorem transfer_only_reads depth uid target_server source_server x wallet w r w' :
  transfer depth uid target_server source_server x wallet w = Some (r, w') →
  client_frame w w' ∧ ledger w' = ledger w ∧
  ∃ rs, requests w' = requests w ++ rs ∧
        Forall (fun q => req_method q = GET ∧ req_user q = uid) rs.
Proof.
  assert (Hsame : client_frame w w ∧ ledger w = ledger w ∧
            ∃ rs, requests w = requests w ++ rs ∧
                  Forall (fun q => req_method q = GET ∧ req_user q = uid) rs).
  { split; [apply client_frame_refl|]. split; [done|].
    exists []. by rewrite app_nil_r. }
  unfold transfer. intros H.
  destruct (negb (db_loaded w) || negb (unb_loaded w))%bool; [by invert_some|].
  destruct (negb _); [by invert_some|].
  destruct (py_lt x _ || py_gt x _)%bool; [by invert_some|].
  destruct (find_economies _ _ _) as [[s|] [t|]]; try by invert_some.
  destruct (guild_id s =? guild_id t); [by invert_some|].
  unfold bind, ret in H.
  destruct (user_has_sufficient_balance _ _ _ _ _ _) as [[b w2]|] eqn:Hhas;
    [|discriminate].
  assert (w' = w2) as ->.
  { destruct b; simpl in H; [|by invert_some].
    destruct (convert _ _ _); by invert_some. }
  clear H Hsame. unfold user_has_sufficient_balance, bind, ret in Hhas.
  destruct (get_user_balance _ _ _ _) as [[bal w3]|] eqn:Hget; [|discriminate].
  assert (w3 = w2) as ->.
  { destruct bal; [|by invert_some].
    destruct (String.eqb _ _); [by invert_some|].
    destruct (String.eqb _ _); by invert_some. }
  apply get_user_balance_inv in Hget as (Hf & Hl & (k & Hk) & _).
  split; [done|]. split; [done|].
  exists (replicate k (mkRequest GET (guild_id s) uid None)). split; [done|].
  by apply Forall_replicate.
Qed.

Lemma transfer_only_reads_witness :
  let w := scenario_world (always Status200) in
  ∃ r w',
    transfer 1 7 "Beta" "Alpha" 1000%float "cash" w = Some (r, w') ∧
    client_frame w w' ∧ ledger w' = ledger w ∧
    ∃ rs, requests w' = requests w ++ rs ∧
          Forall (fun q => req_method q = GET ∧ req_user q = 7) rs.
Proof.
  intros w. eexists _, _. split; [vm_compute; reflexivity|].
  eapply (transfer_only_reads 1 7 "Beta" "Alpha" 1000%float "cash" w).
  vm_compute. reflexivity.
Defined.



(** X19. [transfer] reads the two server names and the wallet type without
    regard to (ASCII) case: requests that differ only in the case of these
    three strings are answered alike. *)
Theorem transfer_ignores_case depth uid t t' s s' x wl wl' w :
  lower s = lower s' → lower t = lower t' → lower wl = lower wl' →
  transfer depth uid t s x wl w = transfer depth uid t' s' x wl' w.
Proof.
  intros Hs Ht Hw. unfold transfer, find_economies. by rewrite Hs, Ht, Hw.
Qed.

Lemma transfer_ignores_case_witness :
  transfer 1 7 "BETA" "alpha" 100%float "Cash" (scenario_world (always Status200))
  = transfer 1 7 "Beta" "Alpha" 100%float "cash" (scenario_world (always Status200)).
Proof.
  apply (transfer_ignores_case 1 7 "BETA" "Beta" "alpha" "Alpha" 100%float
           "Cash" "cash" (scenario_world (always Status200))); reflexivity.
Defined.

(** ** Extras on [cogs/admin.py] and [cogs/economy.py] *)

Lemma find_elem_of {A} (f : A → bool) l x : find f l = Some x → x ∈ l ∧ f x = true.
Proof.
  induction l as [|y l IH]; simpl; [done|].
  destruct (f y) eqn:Hy.
  - intros [= ->]. split; [by left | done].
  - intros H. apply IH in H as [? ?]. split; [by right | done].
Qed.

Lemma find_None_not {A} (f : A → bool) l : find f l = None → ∀ x, x ∈ l → f x = false.
Proof.
  induction l as [|y l IH]; simpl; intros H x Hx; [by apply not_elem_of_nil in Hx|].
  destruct (f y) eqn:Hy; [discriminate|].
  apply elem_of_cons in Hx as [->|Hx]; [done | by apply IH].
Qed.

(** X20. [kick_economy]: without authorization, without the Database cog or
    without an approved economy of that name, nothing changes. Otherwise an
    approved economy of that name is removed, the other economies stay, one
    ['economy_kicked'] entry with the reason is added to the audit log, and
    ledger, transfers and officers are untouched. The failure answer never
    occurs. *)
Theorem kick_economy_removes_an_approved_economy uid name reason w :
  let r := kick_economy uid name reason w in
  match fst r with
  | KickNotAuthorized => is_officer_or_owner uid w = false ∧ snd r = w
  | KickDatabaseNotAvailable => db_loaded w = false ∧ snd r = w
  | KickServerNotFound => ¬ approved_named name w ∧ snd r = w
  | KickRemoved =>
      is_officer_or_owner uid w = true ∧
      ∃ e, e ∈ economies w ∧ status e = "approved"%string ∧
           lower (guild_name e) = lower name ∧
           get_economy (guild_id e) (snd r) = None ∧
           (∀ g, g ≠ guild_id e → get_economy g (snd r) = get_economy g w) ∧
           audit_log (snd r) = audit_log w ++
             [mkAudit "economy_kicked" uid (Some (guild_id e)) (KickReason reason)
                      (now w)] ∧
           ledger (snd r) = ledger w ∧ transfers (snd r) = transfers w ∧
           approved_officers (snd r) = approved_officers w
  | KickFailed => False
  end.
Proof.
  intros r. subst r. unfold kick_economy.
  destruct (is_officer_or_owner uid w) eqn:Hauth; simpl; [|done].
  destruct (db_loaded w) eqn:Hdb; simpl; [|done].
  destruct (find _ _) as [e|] eqn:Hfind; simpl.
  - split; [done|]. apply find_elem_of in Hfind as [Hin Hname].
    apply String.eqb_eq in Hname.
    unfold get_all_economies in Hin. simpl in Hin.
    apply elem_of_order_by, list_elem_of_filter in Hin as [Hst Hin].
    exists e. split; [done|]. split; [done|]. split; [done|].
    pose proof (remove_economy_forgets_the_id_aux (guild_id e) w) as (Hgone & Hothers).
    split; [exact Hgone|]. split; [exact Hothers|]. done.
  - split; [|done]. intros (e & Hin & Hst & Hname).
    eapply find_None_not in Hfind.
    + rewrite <- Hname, String.eqb_refl in Hfind. discriminate.
    + unfold get_all_economies. simpl.
      apply elem_of_order_by, list_elem_of_filter. done.
Qed.

Lemma update_economy_status_lookup gid st by_user w :
  get_economy gid (snd (update_economy_status gid st by_user w))
    = updated_row st by_user (now w) <$> get_economy gid w ∧
  (get_economy gid w = None →
   economies (snd (update_economy_status gid st by_user w)) = economies w).
Proof.
  rewrite update_economy_status_run. unfold get_economy. simpl. split.
  - rewrite find_update_where by apply updated_row_guild_id. by rewrite decide_True.
  - unfold update_where. intros Hnone.
    induction (economies w) as [|x l IH]; simpl in *; [done|].
    destruct (guild_id x =? gid); [discriminate|]. f_equal. by apply IH.
Qed.

Lemma update_economy_status_effect gid st by_user w :
  update_economy_status gid st by_user w
    = (true, snd (update_economy_status gid st by_user w)) ∧
  audit_log (snd (update_economy_status gid st by_user w)) = audit_log w ∧
  ledger (snd (update_economy_status gid st by_user w)) = ledger w ∧
  now (snd (update_economy_status gid st by_user w)) = now w.
Proof. by rewrite update_economy_status_run. Qed.

Lemma audit_log_log_action a u g d w :
  audit_log (snd (log_action a u g d w)) = audit_log w ++ [mkAudit a u g d (now w)].
Proof. done. Qed.

Lemma ledger_log_action a u g d w : ledger (snd (log_action a u g d w)) = ledger w.
Proof. done. Qed.

Lemma economies_log_action a u g d w :
  economies (snd (log_action a u g d w)) = economies w.
Proof. done. Qed.

Lemma get_economy_log_action gid a u g d w :
  get_economy gid (snd (log_action a u g d w)) = get_economy gid w.
Proof. done. Qed.

(** X21. An officer who presses Approve gets the approved answer and one
    ['economy_approved'] audit entry, whether or not the application still
    exists. If it exists, whatever its status, the row becomes approved, with
    the officer and the time recorded, and the economy is from then on found
    by [transfer] under its name; if it is gone, the table is unchanged. *)
Theorem approve_button_approves g uid w :
  db_loaded w = true → is_officer uid w = true → uid ≠ 0 →
  let r := approve_button g uid w in
  fst r = Decided ∧
  audit_log (snd r) = audit_log w ++
    [mkAudit "economy_approved" uid (Some g) NoDetails (now w)] ∧
  ledger (snd r) = ledger w ∧
  match get_economy g w with
  | Some e =>
      get_economy g (snd r)
        = Some (with_approval "approved" (now w) uid e) ∧
      approved_named (guild_name e) (snd r)
  | None => economies (snd r) = economies w
  end.
Proof.
  intros Hdb Hoff Hid r. subst r. unfold approve_button.
  rewrite Hdb, Hoff. cbn [negb].
  destruct (update_economy_status_lookup g "approved" (Some uid) w) as [Hrow Hnone].
  destruct (update_economy_status_effect g "approved" (Some uid) w)
    as (Hrun & Ha & Hl & Hn).
  rewrite Hrun. cbn [fst snd].
  split; [done|]. split; [by rewrite audit_log_log_action, Ha, Hn|].
  split; [by rewrite ledger_log_action|].
  destruct (get_economy g w) as [e|] eqn:Hget.
  - assert (Hup : updated_row "approved" (Some uid) (now w) e
                  = with_approval "approved" (now w) uid e).
    { unfold updated_row. simpl. by destruct (Z.eqb_spec uid 0). }
    change (updated_row "approved" (Some uid) (now w) <$> Some e)
      with (Some (updated_row "approved" (Some uid) (now w) e)) in Hrow.
    rewrite Hup in Hrow.
    rewrite get_economy_log_action, Hrow. split; [done|].
    exists (with_approval "approved" (now w) uid e).
    rewrite economies_log_action. split; [|done].
    unfold get_economy in Hrow. by apply find_elem_of in Hrow as [? _].
  - rewrite economies_log_action. by apply Hnone.
Qed.

Lemma approve_button_approves_witness :
  let w := scenario_world (always Status200) in
  let r := approve_button 3 42 w in
  fst r = Decided ∧
  audit_log (snd r) = audit_log w ++
    [mkAudit "economy_approved" 42 (Some 3) NoDetails (now w)] ∧
  ledger (snd r) = ledger w ∧
  match get_economy 3 w with
  | Some e =>
      get_economy 3 (snd r) = Some (with_approval "approved" (now w) 42 e) ∧
      approved_named (guild_name e) (snd r)
  | None => economies (snd r) = economies w
  end.
Proof.
  intros w. apply (approve_button_approves 3 42 w); [reflexivity..|lia].
Defined.

(** X22. An officer who presses Reject gets the decided answer and one
    ['economy_rejected'] audit entry. A row with that id, whatever its
    status, becomes rejected and keeps every other field, approver and
    approval time included; with no such row the table is unchanged. *)
Theorem reject_button_rejects g uid w :
  db_loaded w = true → is_officer uid w = true →
  let r := reject_button g uid w in
  fst r = Decided ∧
  audit_log (snd r) = audit_log w ++
    [mkAudit "economy_rejected" uid (Some g) NoDetails (now w)] ∧
  ledger (snd r) = ledger w ∧
  match get_economy g w with
  | Some e => get_economy g (snd r) = Some (with_status "rejected" e)
  | None => economies (snd r) = economies w
  end.
Proof.
  intros Hdb Hoff r. subst r. unfold reject_button.
  rewrite Hdb, Hoff. cbn [negb].
  destruct (update_economy_status_lookup g "rejected" None w) as [Hrow Hnone].
  destruct (update_economy_status_effect g "rejected" None w)
    as (Hrun & Ha & Hl & Hn).
  rewrite Hrun. cbn [fst snd].
  split; [done|]. split; [by rewrite audit_log_log_action, Ha, Hn|].
  split; [by rewrite ledger_log_action|].
  destruct (get_economy g w) as [e|] eqn:Hget.
  - by rewrite get_economy_log_action, Hrow.
  - rewrite economies_log_action. by apply Hnone.
Qed.

Lemma reject_button_rejects_witness :
  let w := scenario_world (always Status200) in
  let r := reject_button 3 42 w in
  fst r = Decided ∧
  audit_log (snd r) = audit_log w ++
    [mkAudit "economy_rejected" 42 (Some 3) NoDetails (now w)] ∧
  ledger (snd r) = ledger w ∧
  match get_economy 3 w with
  | Some e => get_economy 3 (snd r) = Some (with_status "rejected" e)
  | None => economies (snd r) = economies w
  end.
Proof.
  intros w. apply (reject_button_rejects 3 42 w); reflexivity.
Defined.

(** X23. The two buttons turn a user away exactly when the Database cog is
    loaded and the user is not in the officer table, and a press that is
    turned away, or that finds no Database cog, changes nothing. *)
Theorem approval_buttons_refuse_without_change g uid w :
  (fst (approve_button g uid w) = NotAuthorized ↔
     db_loaded w = true ∧ is_officer uid w = false) ∧
  (fst (reject_button g uid w) = NotAuthorized ↔
     db_loaded w = true ∧ is_officer uid w = false) ∧
  (db_loaded w = false ∨ is_officer uid w = false →
   snd (approve_button g uid w) = w ∧ snd (reject_button g uid w) = w).
Proof.
  unfold approve_button, reject_button. rewrite !update_economy_status_run.
  destruct (db_loaded w), (is_officer uid w); simpl;
    intuition (try discriminate; try reflexivity).
Qed.

(** X24. Withdrawal. [withdraw] offers the confirmation exactly for a guild
    that has a row in the registry, whatever its status. On that view only
    the user who asked can confirm; another user's press changes nothing.
    The confirmed withdrawal removes the row, keeps the other rows, the
    ledger and the transfer log, and adds one ['economy_withdraw'] audit
    entry; it never answers with the failure message. *)
Theorem withdrawal_removes_the_economy gid uid presser w w' :
  (withdraw gid uid w = ConfirmWithdrawal gid uid ↔
     db_loaded w = true ∧ is_Some (get_economy gid w)) ∧
  let r := confirm_withdrawal gid uid presser w' in
  match fst r with
  | OnlyInitiatorCanConfirm => presser ≠ uid ∧ snd r = w'
  | WithdrawRaisedAttributeError => db_loaded w' = false ∧ snd r = w'
  | Withdrawn =>
      presser = uid ∧
      get_economy gid (snd r) = None ∧
      (∀ g, g ≠ gid → get_economy g (snd r) = get_economy g w') ∧
      audit_log (snd r) = audit_log w' ++
        [mkAudit "economy_withdraw" presser (Some gid) NoDetails (now w')] ∧
      ledger (snd r) = ledger w' ∧ transfers (snd r) = transfers w'
  | WithdrawFailed => False
  end.
Proof.
  split.
  - unfold withdraw. destruct (db_loaded w); simpl.
    + destruct (get_economy gid w) as [e|]; split; try done;
        try (intros _; split; [done | by exists e]);
        try (by intros [_ [? ?]]).
    + split; [done | by intros [? _]].
  - unfold confirm_withdrawal.
    destruct (Z.eqb_spec presser uid) as [->|Hne]; simpl; [|done].
    destruct (db_loaded w'); simpl; [|done].
    destruct (remove_economy_forgets_the_id_aux gid w') as [Hgone Hothers].
    split; [done|]. split; [exact Hgone|]. split; [exact Hothers|]. done.
Qed.

(** ** Extras on the autocompletion *)

Lemma prefix_append p : ∀ s,
  String.prefix p s = true ↔ ∃ post, s = String.append p post.
Proof.
  induction p as [|a p IH]; intros s.
  - destruct s; simpl; split; eauto.
  - destruct s as [|b s]; simpl.
    + split; [done | intros [post H]; discriminate].
    + destruct (Ascii.ascii_dec a b) as [->|Hne].
      * rewrite IH. split; intros [post H]; exists post;
          [simpl; by rewrite H | simpl in H; by injection H].
      * split; [done | intros [post H]; simpl in H; injection H as Hab _; by subst].
Qed.

Lemma contains_unfold needle hay :
  contains needle hay
  = if String.prefix needle hay then true
    else match hay with
         | EmptyString => false
         | String _ hay' => contains needle hay'
         end.
Proof. by destruct hay. Qed.

(** [contains] is the substring test. *)
Lemma contains_substring needle : ∀ hay,
  contains needle hay = true ↔
  ∃ pre post, hay = String.append pre (String.append needle post).
Proof.
  intros hay. split.
  - induction hay as [|c hay IH]; rewrite contains_unfold;
      destruct (String.prefix needle _) eqn:Hp;
      try (apply prefix_append in Hp as [post Hp]; intros _;
           exists ""%string, post; exact Hp);
      [done|].
    intros H. destruct (IH H) as (pre & post & ->). by exists (String c pre), post.
  - intros (pre & post & ->). induction pre as [|c pre IH].
    + assert (String.prefix needle (String.append needle post) = true) as Hp
        by (apply prefix_append; eauto).
      change (String.append "" (String.append needle post))
        with (String.append needle post).
      rewrite contains_unfold. by rewrite Hp.
    + change (String.append (String c pre) (String.append needle post))
        with (String c (String.append pre (String.append needle post))).
      rewrite contains_unfold. rewrite IH. by destruct (String.prefix _ _).
Qed.

Lemma server_choices_sound current l name value :
  (name, value) ∈ server_choices current l →
  value = name ∧
  ∃ e, e ∈ l ∧ guild_name e = name ∧ contains (lower current) (lower name) = true.
Proof.
  unfold server_choices. intros H.
  apply list_elem_of_fmap in H as (e & [= -> ->] & He).
  split; [done|]. exists e.
  apply elem_of_take in He as (i & Hi & _).
  assert (e ∈ filter (fun e => contains (lower current) (lower (guild_name e)) = true) l)
    as Hin by (apply list_elem_of_lookup; eauto).
  apply list_elem_of_filter in Hin. tauto.
Qed.

(** X25. The server autocompletion of [transfer] offers at most 25 choices;
    each is the name of an approved economy of the table that contains the
    typed text, both taken in lower case, and is offered as its own value.
    Source and target are completed alike. The completion of [kick_economy]
    offers nothing to a user who is neither owner nor officer. *)
Theorem server_autocomplete_offers_approved current w :
  let choices := source_server_autocomplete current w in
  (length choices ≤ 25)%nat ∧
  target_server_autocomplete current w = choices ∧
  (∀ name value, (name, value) ∈ choices →
     value = name ∧
     ∃ e, e ∈ economies w ∧ status e = "approved"%string ∧ guild_name e = name ∧
          ∃ pre post,
            lower name = String.append pre (String.append (lower current) post)) ∧
  (∀ uid, is_officer_or_owner uid w = false →
          kick_server_autocomplete uid current w = []) ∧
  (∀ uid name value, (name, value) ∈ kick_server_autocomplete uid current w →
                     (name, value) ∈ choices).
Proof.
  intros choices. subst choices.
  unfold source_server_autocomplete, target_server_autocomplete,
    kick_server_autocomplete.
  split; [|split; [done|split; [|split]]].
  - destruct (db_loaded w); simpl; [|lia].
    unfold server_choices. rewrite length_fmap, length_take. lia.
  - intros name value H. destruct (db_loaded w); simpl in H;
      [|by apply not_elem_of_nil in H].
    apply server_choices_sound in H as (-> & e & Hin & Hname & Hc).
    split; [done|]. exists e.
    unfold get_all_economies in Hin. simpl in Hin.
    apply elem_of_order_by, list_elem_of_filter in Hin as [Hst Hin].
    split; [done|]. split; [done|]. split; [done|].
    by apply contains_substring.
  - by intros uid ->.
  - intros uid name value H.
    destruct (is_officer_or_owner uid w); simpl in H; [|by apply not_elem_of_nil in H].
    by destruct (db_loaded w).
Qed.

(** ** Extras on how the parts compose *)



Lemma StronglySorted_filter {A} (R : relation A) (P : A → Prop)
    `{∀ x, Decision (P x)} (l : list A) :
  StronglySorted R l → StronglySorted R (filter P l).
Proof.
  induction 1 as [|x l Hs IH Hx]; [constructor|].
  rewrite filter_cons. case_decide; [|done].
  constructor; [done|]. apply Forall_forall. intros y Hy.
  apply list_elem_of_filter in Hy as [_ Hy].
  by eapply Forall_forall in Hx.
Qed.

(** In a list kept latest first, the last row of a name is one applied
    earliest among the rows of that name. *)
Lemma lookup_by_name_earliest name l e :
  StronglySorted (latest_first applied_at) l →
  lookup_by_name name l = Some e →
  ∀ e', e' ∈ l → lower (guild_name e') = lower name → applied_at e ≤ applied_at e'.
Proof.
  unfold lookup_by_name. intros Hs Hlast e' Hin Hname.
  apply (StronglySorted_filter _ (fun e => lower (guild_name e) = lower name)) in Hs.
  assert (e' ∈ filter (fun e => lower (guild_name e) = lower name) l) as Hin'
    by (by apply list_elem_of_filter).
  apply last_Some in Hlast as (l' & Hl'). rewrite Hl' in Hs, Hin'.
  apply elem_of_app in Hin' as [Hin'|Hin'].
  - eapply (StronglySorted_app_1_elem_of _ _ _ e' e) in Hs; [done|done|by left].
  - apply list_elem_of_singleton in Hin' as ->. lia.
Qed.

(** The first row of a name is one applied latest among them. *)
Lemma find_by_name_latest (f : Economy → bool) l e :
  StronglySorted (latest_first applied_at) l →
  find f l = Some e →
  ∀ e', e' ∈ l → f e' = true → applied_at e' ≤ applied_at e.
Proof.
  induction 1 as [|x l Hs IH Hx]; simpl; [done|].
  destruct (f x) eqn:Hfx.
  - intros [= ->] e' Hin _. apply elem_of_cons in Hin as [->|Hin]; [lia|].
    by eapply Forall_forall in Hx.
  - intros Hfind e' Hin Hf. apply elem_of_cons in Hin as [->|Hin]; [congruence|].
    by apply IH.
Qed.

(** X27. When several approved economies share a name, [transfer] works on
    one that applied earliest (its loop keeps the last match of the list,
    which is latest first), while [kick_economy] removes one that applied
    latest (its loop stops at the first match). *)
Theorem duplicate_names_transfer_earliest_kick_latest :
  (∀ depth uid target_server source_server x wallet w v w1,
     transfer depth uid target_server source_server x wallet w
       = Some (Confirmation v, w1) →
     ∀ e, e ∈ economies w → status e = "approved"%string →
          (lower (guild_name e) = lower source_server →
           applied_at (source_economy v) ≤ applied_at e) ∧
          (lower (guild_name e) = lower target_server →
           applied_at (target_economy v) ≤ applied_at e)) ∧
  (∀ uid name reason w,
     fst (kick_economy uid name reason w) = KickRemoved →
     ∃ removed,
       removed ∈ economies w ∧
       get_economy (guild_id removed) (snd (kick_economy uid name reason w)) = None ∧
       ∀ e, e ∈ economies w → status e = "approved"%string →
            lower (guild_name e) = lower name →
            applied_at e ≤ applied_at removed).
Proof.
  assert (Hsorted : ∀ w, StronglySorted (latest_first applied_at)
                           (get_all_economies (Some "approved"%string) w))
    by (intros w; apply get_all_economies_sorted).
  assert (Hmem : ∀ w e, e ∈ economies w → status e = "approved"%string →
                        e ∈ get_all_economies (Some "approved"%string) w).
  { intros w e Hin Hst. unfold get_all_economies. simpl.
    apply elem_of_order_by, list_elem_of_filter. done. }
  split.
  - intros depth uid t s x wallet w v w1 H e Hin Hst.
    apply transfer_accepts in H as (_ & _ & _ & _ & _ & Hs & Ht & _).
    split; intros Hname.
    + eapply lookup_by_name_earliest; eauto.
    + eapply lookup_by_name_earliest; eauto.
  - intros uid name reason w. unfold kick_economy.
    destruct (is_officer_or_owner uid w); simpl; [|done].
    destruct (db_loaded w); simpl; [|done].
    destruct (find _ _) as [removed|] eqn:Hfind; simpl; [|done].
    intros _. exists removed.
    pose proof (find_elem_of _ _ _ Hfind) as [Hin _].
    unfold get_all_economies in Hin. simpl in Hin.
    apply elem_of_order_by, list_elem_of_filter in Hin as [_ Hin].
    split; [done|].
    split; [apply remove_economy_forgets_the_id_aux|].
    intros e He Hst Hname.
    eapply find_by_name_latest; [apply Hsorted | exact Hfind | by apply Hmem|].
    by apply String.eqb_eq.
Qed.

(** X28. A completed transfer shows in the history of the user: the row
    that [confirm] has logged is among the rows that [get_user_transfers]
    answers with when no bound is set. *)
Theorem completed_transfer_is_in_the_history depth v uid w w' :
  confirm depth v uid w = Some (TransferComplete, w') →
  ∃ t, t ∈ get_user_transfers uid (-1) w' ∧
       tr_user_id t = uid ∧
       from_guild_id t = guild_id (source_economy v) ∧
       to_guild_id t = guild_id (target_economy v) ∧
       amount_source t = amount v ∧ amount_target t = target_amount v ∧
       tr_wallet_type t = wallet_type v.
Proof.
  intros H. apply confirm_runs, confirm_run_frame in H
    as (rate & w3 & _ & (_&_&_&_&Hn&_&Ht&_) & ->).
  eexists (mkTransferRecord uid _ _ _ _ _ _ _ _ rate).
  split; [|repeat split; reflexivity].
  unfold get_user_transfers, sql_limit. simpl.
    rewrite order_by_timestamp_desc_insert.
    destruct (foldr_insert_latest tr_timestamp
                (filter (fun t => tr_user_id t = uid)
                   (transfers w3 ++
                    [mkTransferRecord uid (guild_id (source_economy v))
                       (guild_id (target_economy v)) (amount v) (target_amount v)
                       (currency_name (source_economy v))
                       (currency_name (target_economy v)) (wallet_type v)
                       (now w3) rate]))) as [_ Hp].
    rewrite Hp. apply list_elem_of_filter. split; [done|].
    apply elem_of_app. right. by left.
Qed.

Lemma completed_transfer_is_in_the_history_witness :
  let w := scenario_world (always Status200) in
  ∃ w' t,
    confirm 1 scenario_view 7 w = Some (TransferComplete, w') ∧
    t ∈ get_user_transfers 7 (-1) w' ∧
    tr_user_id t = 7 ∧ from_guild_id t = 1 ∧ to_guild_id t = 2 ∧
    amount_source t = 100%float ∧ amount_target t = 50%float ∧
    tr_wallet_type t = "cash"%string.
Proof.
  intros w.
  assert (Hc : confirm 1 scenario_view 7 w
               = Some (TransferComplete,
                       snd (default (DebitFailed, w) (confirm 1 scenario_view 7 w))))
    by (vm_compute; reflexivity).
  set (w' := snd _) in Hc.
  destruct (completed_transfer_is_in_the_history 1 scenario_view 7 w w' Hc)
    as (t & Hin & Hrest).
  by exists w', t.
Defined.

(** X29. The officer table is what the approval buttons obey: with the
    Database cog loaded and ids that fit SQLite's INTEGER (as Discord's
    do), a user is let through by both buttons right after [add_officer] for
    that user (whether it added the user or found the user there), and is
    turned away by both right after [remove_officer]; after the removal
    [kick_economy] turns the user away too, unless the user is the owner. *)
Theorem officer_table_gates_the_buttons uid by_user g name reason w :
  db_loaded w = true →
  sqlite_integer uid = true → sqlite_integer by_user = true →
  let added := snd (add_officer uid by_user w) in
  let removed := snd (remove_officer uid w) in
  fst (approve_button g uid added) = Decided ∧
  fst (reject_button g uid added) = Decided ∧
  fst (approve_button g uid removed) = NotAuthorized ∧
  fst (reject_button g uid removed) = NotAuthorized ∧
  (uid ≠ owner_user_id (config w) →
   kick_economy uid name reason removed = (KickNotAuthorized, removed)).
Proof.
  intros Hdb Hu Hb added removed.
  assert (Hda : db_loaded added = true).
  { subst added. unfold add_officer. rewrite Hu, Hb. simpl.
    by destruct (existsb _ _). }
  assert (Hdr : db_loaded removed = true).
  { subst removed. unfold remove_officer. by rewrite Hu. }
  assert (Hcr : config removed = config w).
  { subst removed. unfold remove_officer. by rewrite Hu. }
  pose proof (is_officer_after_add uid by_user w Hu Hb) as Hoa. fold added in Hoa.
  pose proof (is_officer_after_remove uid w) as Hor. fold removed in Hor.
  unfold approve_button, reject_button, kick_economy, is_officer_or_owner.
  rewrite !update_economy_status_run, Hda, Hdr, Hoa, Hor, Hcr. simpl.
  repeat split; try done.
  intros Hne. by destruct (Z.eqb_spec uid (owner_user_id (config w))).
Qed.

Lemma officer_table_gates_the_buttons_witness :
  let w := scenario_world (always Status200) in
  let added := snd (add_officer 7 99 w) in
  let removed := snd (remove_officer 42 w) in
  fst (approve_button 3 7 added) = Decided ∧
  fst (approve_button 3 42 removed) = NotAuthorized.
Proof.
  intros w added removed.
  destruct (officer_table_gates_the_buttons 7 99 3 "Alpha" "r" w eq_refl
              eq_refl eq_refl) as (Ha & _).
  destruct (officer_table_gates_the_buttons 42 99 3 "Alpha" "r" w eq_refl
              eq_refl eq_refl) as (_ & _ & Hr & _).
  split; [exact Ha | exact Hr].
Defined.

(** Two approved economies called Alpha: [transfer] takes the one that
    applied first (guild 1), [kick_economy] removes the one that applied
    last (guild 5). *)
Example duplicate_names_in_the_scenario :
  let w := set_economies
             [alpha; beta;
              mkEconomy 5 "ALPHA" "alt" "a$" 3%float "approved" None 103 20 None None]
             (scenario_world (always Status200)) in
  (∃ v w1, transfer 1 7 "Beta" "Alpha" 100%float "cash" w = Some (Confirmation v, w1) ∧
           guild_id (source_economy v) = 1) ∧
  fst (kick_economy 99 "Alpha" "duplicate" w) = KickRemoved ∧
  get_economy 5 (snd (kick_economy 99 "Alpha" "duplicate" w)) = None ∧
  is_Some (get_economy 1 (snd (kick_economy 99 "Alpha" "duplicate" w))).
Proof.
  intros w. split; [eexists _, _; split; vm_compute; reflexivity|].
  split; [vm_compute; reflexivity|]. split; [vm_compute; reflexivity|].
  vm_compute. eauto.
Qed.
